(** * The address-validation feedback of [src/server.ts]

    A shallow embedding of the response-processing part of the
    [validate-address] tool (step 3 of its handler, with the [try]/[catch]
    around it) and the properties of the feedback text it computes.

    Scope of the model.
    - Step 3 is modelled first, on its own: the parsed body of the second
      [fetch], [validationData], is its input.  The handler from its first
      line, with the two [fetch] calls as calls to a network that is an
      input too, follows further down.
    - A parsed body is [null] or is read at the properties the handler
      reads.  [address] and [additionalInfo] are objects or falsy (missing,
      [null]): an [option] stands for them.  [errors] is an array or falsy,
      and an entry of it is an object or [null].  A leaf is a string, [null],
      missing, or any other value that converts to a string (a number, a
      boolean, an array, a plain object), which is given by that string.
    - Strings are modelled on the ASCII repertoire: a [string] stands for the
      JavaScript string with the same code units, all of them below 128
      ([isAscii]).  On that repertoire [trim], [toUpperCase] and the
      serializer of URLSearchParams are the ones of the platform; above it
      they are not, and a statement that would be false of the platform's
      functions there assumes [isAscii] of the strings it is about. *)

From Stdlib Require Import String Ascii List Bool NArith Arith Lia DecimalString.
Import ListNotations.
Local Open Scope string_scope.

(** ** The JavaScript values and operations the handler uses *)

Module JS.

(** A leaf of the parsed JSON body: a missing property, [null], a string,
    or another value (a number, a boolean, an array, an object), given by the
    string that ToString makes of it. *)
Inductive value : Type :=
| JUndefined
| JNull
| JString (s : string)
| JOther (rendering : string).

(** ToString, as a template literal applies it to [${...}]. *)
Definition ToString (v : value) : string :=
  match v with
  | JUndefined => "undefined"
  | JNull => "null"
  | JString s => s
  | JOther rendering => rendering
  end.

(** [v === lit] for a string literal [lit]. *)
Definition strictEq (v : value) (lit : string) : bool :=
  match v with
  | JString s => String.eqb s lit
  | _ => false
  end.

(** Exceptions, and the completion of an evaluation that may throw. *)
Inductive exn : Type :=
| TypeError (message : string).

Definition message (e : exn) : string :=
  match e with TypeError m => m end.

Inductive completion (A : Type) : Type :=
| Normal (a : A)
| Throw (e : exn).

Arguments Normal {A} a.
Arguments Throw {A} e.

Definition bind {A B : Type} (c : completion A) (k : A -> completion B)
  : completion B :=
  match c with
  | Normal a => k a
  | Throw e => Throw e
  end.

(** WhiteSpace and LineTerminator code units below 128: TAB, LF, VT, FF,
    CR and SP. *)
Definition isWhiteSpace (c : ascii) : bool :=
  let n := N_of_ascii c in
  ((9 <=? n) && (n <=? 13) || (n =? 32))%N.

Definition isLower (c : ascii) : bool :=
  let n := N_of_ascii c in ((97 <=? n) && (n <=? 122))%N.

(** The uppercase mapping of one code unit below 128: [a]..[z] go to
    [A]..[Z], every other one stays. *)
Definition upperChar (c : ascii) : ascii :=
  if isLower c then ascii_of_N (N_of_ascii c - 32) else c.

(** String.prototype.trimStart *)
Fixpoint trimStart (s : string) : string :=
  match s with
  | EmptyString => EmptyString
  | String c s' => if isWhiteSpace c then trimStart s' else s
  end.

(** String.prototype.trimEnd *)
Fixpoint trimEnd (s : string) : string :=
  match s with
  | EmptyString => EmptyString
  | String c s' =>
      match trimEnd s' with
      | EmptyString => if isWhiteSpace c then EmptyString
                       else String c EmptyString
      | t => String c t
      end
  end.

(** String.prototype.trim *)
Definition trim (s : string) : string := trimEnd (trimStart s).

(** String.prototype.toUpperCase *)
Fixpoint toUpperCase (s : string) : string :=
  match s with
  | EmptyString => EmptyString
  | String c s' => String (upperChar c) (toUpperCase s')
  end.

(** The method call [v.trim()] on the verified street: reading [trim] off
    [undefined] or [null] throws, and so does calling it on a value that is
    no string, where [trim] is [undefined] (the messages are V8's). *)
Definition callTrim (v : value) : completion string :=
  match v with
  | JString s => Normal (trim s)
  | JUndefined =>
      Throw (TypeError "Cannot read properties of undefined (reading 'trim')")
  | JNull =>
      Throw (TypeError "Cannot read properties of null (reading 'trim')")
  | JOther _ =>
      Throw (TypeError
               "validationData.address.streetAddress.trim is not a function")
  end.

End JS.

Import JS.

Notation "x <- c ;; k" := (bind c (fun x => k))
  (at level 61, c at next level, right associativity).

(** ** The data the handler reads *)

(** The tool's parameters (lines 96-102). *)
Module Params.
Record t : Type := mk {
  streetAddress : string;
  city : string;
  state : string;
  zipCode : option string
}.
End Params.

(** [validationData.address] *)
Module Address.
Record t : Type := mk {
  streetAddress : value;
  city : value;
  state : value;
  ZIPCode : value;
  ZIPPlus4 : value
}.
End Address.

(** [validationData.additionalInfo] *)
Module AdditionalInfo.
Record t : Type := mk {
  DPVConfirmation : value
}.
End AdditionalInfo.

(** An element of [validationData.errors] that is not [null] *)
Module ErrorItem.
Record t : Type := mk {
  text : value
}.
End ErrorItem.

(** [validationData], the parsed body of the lookup response: [null], or
    a value with the three properties the handler reads.  An entry of
    [errors] is an object or [null]. *)
Module ValidationData.
Inductive t : Type :=
| Null
| mk (address : option Address.t)
     (additionalInfo : option AdditionalInfo.t)
     (errors : option (list (option ErrorItem.t))).

(** The properties of a body that is not [null]. *)
Definition address (validationData : t) : option Address.t :=
  match validationData with
  | mk address _ _ => address
  | Null => None
  end.

Definition additionalInfo (validationData : t) : option AdditionalInfo.t :=
  match validationData with
  | mk _ additionalInfo _ => additionalInfo
  | Null => None
  end.

Definition errors (validationData : t) : option (list (option ErrorItem.t)) :=
  match validationData with
  | mk _ _ errors => errors
  | Null => None
  end.
End ValidationData.

(** ** Step 3 of the handler: process the response (lines 149-180) *)

(** [const { DPVConfirmation } = validationData.additionalInfo || {};] *)
Definition DPVConfirmation (validationData : ValidationData.t) : value :=
  match ValidationData.additionalInfo validationData with
  | Some info => AdditionalInfo.DPVConfirmation info
  | None => JUndefined
  end.

(** [params.streetAddress.trim().toUpperCase()] *)
Definition originalStreet (params : Params.t) : string :=
  toUpperCase (trim (Params.streetAddress params)).

(** [validationData.address.streetAddress.trim().toUpperCase()] *)
Definition returnedStreet (address : Address.t) : completion string :=
  s <- callTrim (Address.streetAddress address) ;;
  Normal (toUpperCase s).

(** The template literal of line 159. *)
Definition suggestedAddress (address : Address.t) : string :=
  ToString (Address.streetAddress address) ++ ", " ++
  ToString (Address.city address) ++ ", " ++
  ToString (Address.state address) ++ " " ++
  ToString (Address.ZIPCode address) ++ "-" ++
  ToString (Address.ZIPPlus4 address).

(** The value of [feedback] when line 182 is reached, or the exception
    thrown on the way: by reading [address] off a [null] body, by calling
    [trim] on a street that is no string, or by reading [text] off a [null]
    entry of [errors]. *)
Definition feedback (params : Params.t) (validationData : ValidationData.t)
  : completion string :=
  let feedback := "Address is invalid." in
  match validationData with
  | ValidationData.Null =>
      Throw (TypeError "Cannot read properties of null (reading 'address')")
  | ValidationData.mk _ _ _ =>
  match ValidationData.address validationData with
  | Some address =>
      let DPVConfirmation := DPVConfirmation validationData in
      let originalStreet := originalStreet params in
      returnedStreet <- returnedStreet address ;;
      let suggestedAddress := suggestedAddress address in
      if negb (String.eqb originalStreet returnedStreet) then
        Normal ("Address was corrected. Suggested address: "
                ++ suggestedAddress)
      else if strictEq DPVConfirmation "Y" then
        Normal "Address is valid."
      else if strictEq DPVConfirmation "D" || strictEq DPVConfirmation "S" then
        Normal ("Address could be more accurate. Suggested address: "
                ++ suggestedAddress)
      else
        Normal feedback
  | None =>
      match ValidationData.errors validationData with
      | Some (Some error0 :: _) =>
          Normal ("Invalid Address. Reason: "
                  ++ ToString (ErrorItem.text error0))
      | Some (None :: _) =>
          Throw (TypeError "Cannot read properties of null (reading 'text')")
      | _ => Normal feedback
      end
  end
  end.

(** ** The handler's result (lines 182-200) *)

Record ContentItem : Type := mkContent {
  type : string;
  text : string
}.

Record ToolResult : Type := mkResult {
  content : list ContentItem
}.

(** What [console.error] has written so far: the label and the error of
    each call. *)
Definition console : Type := list (string * exn).

(** The handler from step 3 on, inside its [try]/[catch]: the result, and
    the console after it. *)
Definition validateAddress (params : Params.t)
  (validationData : ValidationData.t) (log : console)
  : ToolResult * console :=
  match feedback params validationData with
  | Normal feedback =>
      (mkResult [mkContent "text" feedback], log)
  | Throw error =>
      (mkResult [mkContent "text" ("Error: " ++ message error)],
       (log ++ [("Error in validateAddress tool:", error)])%list)
  end.

(** ** The verdicts of the specification

    The specification names the shapes of the feedback text and gives the
    text of each.  [Verdict] and [render] follow the specification's words
    (its data model and its response formatter); the theorems below compare
    them with the text [feedback] computes. *)

Inductive Verdict : Type :=
| Valid
| CorrectedSuggestion (formattedAddress : string)
| AccuracySuggestion (formattedAddress : string)
| Invalid (reason : option string).

Definition render (v : Verdict) : string :=
  match v with
  | Valid => "Address is valid."
  | CorrectedSuggestion addr =>
      "Address was corrected. Suggested address: " ++ addr
  | AccuracySuggestion addr =>
      "Address could be more accurate. Suggested address: " ++ addr
  | Invalid (Some reason) => "Invalid Address. Reason: " ++ reason
  | Invalid None => "Address is invalid."
  end.

(** ** Sample inputs *)

Module Sample.

Definition params (street : string) : Params.t :=
  Params.mk street "Springfield" "IL" (Some "62704").

Definition address (street : string) : Address.t :=
  Address.mk (JString street) (JString "Springfield") (JString "IL")
    (JString "62704") (JString "1234").

Definition matched (street code : string) : ValidationData.t :=
  ValidationData.mk (Some (address street))
    (Some (AdditionalInfo.mk (JString code))) None.


Definition unmatched (reasons : list string) : ValidationData.t :=
  ValidationData.mk None None
    (Some (map (fun r => Some (ErrorItem.mk (JString r))) reasons)).

Definition empty : ValidationData.t := ValidationData.mk None None None.

End Sample.

(** ** Vocabulary of the statements *)

(** A string of whitespace only. *)
Fixpoint allWhiteSpace (s : string) : bool :=
  match s with
  | EmptyString => true
  | String c s' => isWhiteSpace c && allWhiteSpace s'
  end.

(** Two code units that are the same, or the small and the capital form of
    one letter ([a] is 97, [A] is 65). *)
Definition caseVariant (a b : ascii) : bool :=
  Ascii.eqb a b
  || (isLower a && (N_of_ascii b + 32 =? N_of_ascii a)%N)
  || (isLower b && (N_of_ascii a + 32 =? N_of_ascii b)%N).

(** The letters of the repertoire. *)
Definition isLetter (c : ascii) : bool :=
  let n := N_of_ascii c in
  (((65 <=? n) && (n <=? 90)) || ((97 <=? n) && (n <=? 122)))%N.

(** Two strings of one length whose code units are pairwise case variants. *)
Fixpoint sameUpToCase (s t : string) : bool :=
  match s, t with
  | EmptyString, EmptyString => true
  | String a s', String b t' => caseVariant a b && sameUpToCase s' t'
  | _, _ => false
  end.

(** Two streets that differ at most in the case of letters and in leading
    and trailing whitespace: each is a core between two runs of whitespace,
    and the cores are the same up to case. *)
Definition differOnlyInCaseOrOuterWhiteSpace (s t : string) : Prop :=
  exists l1 c1 r1 l2 c2 r2,
    s = l1 ++ c1 ++ r1 /\ t = l2 ++ c2 ++ r2 /\
    allWhiteSpace l1 = true /\ allWhiteSpace r1 = true /\
    allWhiteSpace l2 = true /\ allWhiteSpace r2 = true /\
    sameUpToCase c1 c2 = true.

Definition isString (v : value) : bool :=
  match v with JString _ => true | _ => false end.

(** A verified address that carries its five fields. *)
Definition completeAddress (address : Address.t) : bool :=
  isString (Address.streetAddress address)
  && isString (Address.city address)
  && isString (Address.state address)
  && isString (Address.ZIPCode address)
  && isString (Address.ZIPPlus4 address).

(** A reason as the service supplies it: a text that is a string, or no
    text. *)
Definition isReason (v : value) : bool :=
  match v with
  | JOther _ => false
  | _ => true
  end.

(** A well-formed response: a body that is not [null]; with an address,
    the address is complete; without one, [errors] is missing, empty, or
    starts with an object whose text is a string or is missing. *)
Definition wellFormed (validationData : ValidationData.t) : bool :=
  match validationData with
  | ValidationData.Null => false
  | ValidationData.mk (Some address) _ _ => completeAddress address
  | ValidationData.mk None _ (Some (Some error0 :: _)) =>
      isReason (ErrorItem.text error0)
  | ValidationData.mk None _ (Some (None :: _)) => false
  | ValidationData.mk None _ _ => true
  end.

(** A string of the ASCII repertoire: every code unit is below 128. *)
Fixpoint isAscii (s : string) : bool :=
  match s with
  | EmptyString => true
  | String c s' => (N_of_ascii c <? 128)%N && isAscii s'
  end.

(** The text the caller receives. *)
Definition resultText (r : ToolResult) : list string :=
  map text (content r).

(** Every code unit of the model, for checks by enumeration. *)
Definition allAscii : list ascii := map ascii_of_nat (seq 0 256).

(** ** Step 3 as a transition system

    The statements of lines 150-182, one transition each, over the local
    variables of the handler: a second model of step 3, in which the
    variable [feedback] is assigned and assigned again as in the source and
    every test picks its branch by a premise. *)

Module Step.

(** The lines where a statement or a test starts. *)
Inductive point : Type :=
| L150 | L152 | L153 | L156 | L157 | L159 | L163 | L164 | L167 | L168
| L169 | L171 | L177 | L178 | L182.

(** The local variables of step 3. *)
Record locals : Type := mkLocals {
  varFeedback : string;
  varDPVConfirmation : value;
  varOriginalStreet : string;
  varReturnedStreet : string;
  varSuggestedAddress : string
}.

Definition setFeedback (l : locals) (s : string) : locals :=
  mkLocals s (varDPVConfirmation l) (varOriginalStreet l)
    (varReturnedStreet l) (varSuggestedAddress l).

Definition setDPVConfirmation (l : locals) (v : value) : locals :=
  mkLocals (varFeedback l) v (varOriginalStreet l)
    (varReturnedStreet l) (varSuggestedAddress l).

Definition setOriginalStreet (l : locals) (s : string) : locals :=
  mkLocals (varFeedback l) (varDPVConfirmation l) s
    (varReturnedStreet l) (varSuggestedAddress l).

Definition setReturnedStreet (l : locals) (s : string) : locals :=
  mkLocals (varFeedback l) (varDPVConfirmation l) (varOriginalStreet l)
    s (varSuggestedAddress l).

Definition setSuggestedAddress (l : locals) (s : string) : locals :=
  mkLocals (varFeedback l) (varDPVConfirmation l) (varOriginalStreet l)
    (varReturnedStreet l) s.

(** Where an evaluation is: at a line with its variables, or over, with
    the text that line 182 returns or with what was thrown. *)
Inductive config : Type :=
| Running (pc : point) (l : locals)
| Halted (result : completion string).

(** Before line 150 no variable is assigned. *)
Definition initial : config :=
  Running L150 (mkLocals "" JUndefined "" "" "").

Inductive step (params : Params.t) (validationData : ValidationData.t)
  : config -> config -> Prop :=
| step150 l :
    step params validationData (Running L150 l)
      (Running L152 (setFeedback l "Address is invalid."))
| step152_null l :
    validationData = ValidationData.Null ->
    step params validationData (Running L152 l)
      (Halted (Throw (TypeError
                        "Cannot read properties of null (reading 'address')")))
| step152_then l address info errs :
    validationData = ValidationData.mk (Some address) info errs ->
    step params validationData (Running L152 l) (Running L153 l)
| step152_else l info errs :
    validationData = ValidationData.mk None info errs ->
    step params validationData (Running L152 l) (Running L177 l)
| step153 l :
    step params validationData (Running L153 l)
      (Running L156 (setDPVConfirmation l (DPVConfirmation validationData)))
| step156 l :
    step params validationData (Running L156 l)
      (Running L157 (setOriginalStreet l (originalStreet params)))
| step157 l address street :
    ValidationData.address validationData = Some address ->
    Address.streetAddress address = JString street ->
    step params validationData (Running L157 l)
      (Running L159 (setReturnedStreet l (toUpperCase (trim street))))
| step157_throw l address e :
    ValidationData.address validationData = Some address ->
    callTrim (Address.streetAddress address) = Throw e ->
    step params validationData (Running L157 l) (Halted (Throw e))
| step159 l address :
    ValidationData.address validationData = Some address ->
    step params validationData (Running L159 l)
      (Running L163 (setSuggestedAddress l (suggestedAddress address)))
| step163_then l :
    varOriginalStreet l <> varReturnedStreet l ->
    step params validationData (Running L163 l) (Running L164 l)
| step163_else l :
    varOriginalStreet l = varReturnedStreet l ->
    step params validationData (Running L163 l) (Running L167 l)
| step164 l :
    step params validationData (Running L164 l)
      (Running L182
         (setFeedback l ("Address was corrected. Suggested address: "
                         ++ varSuggestedAddress l)))
| step167_then l :
    varDPVConfirmation l = JString "Y" ->
    step params validationData (Running L167 l) (Running L168 l)
| step167_else l :
    varDPVConfirmation l <> JString "Y" ->
    step params validationData (Running L167 l) (Running L169 l)
| step168 l :
    step params validationData (Running L168 l)
      (Running L182 (setFeedback l "Address is valid."))
| step169_then l :
    varDPVConfirmation l = JString "D" \/ varDPVConfirmation l = JString "S" ->
    step params validationData (Running L169 l) (Running L171 l)
| step169_else l :
    varDPVConfirmation l <> JString "D" ->
    varDPVConfirmation l <> JString "S" ->
    step params validationData (Running L169 l) (Running L182 l)
| step171 l :
    step params validationData (Running L171 l)
      (Running L182
         (setFeedback l
            ("Address could be more accurate. Suggested address: "
             ++ varSuggestedAddress l)))
| step177_then l entry rest :
    ValidationData.errors validationData = Some (entry :: rest)%list ->
    step params validationData (Running L177 l) (Running L178 l)
| step177_else l :
    ValidationData.errors validationData = None \/
    ValidationData.errors validationData = Some []%list ->
    step params validationData (Running L177 l) (Running L182 l)
| step178 l error0 rest :
    ValidationData.errors validationData = Some (Some error0 :: rest)%list ->
    step params validationData (Running L178 l)
      (Running L182
         (setFeedback l ("Invalid Address. Reason: "
                         ++ ToString (ErrorItem.text error0))))
| step178_throw l rest :
    ValidationData.errors validationData = Some (None :: rest)%list ->
    step params validationData (Running L178 l)
      (Halted (Throw (TypeError
                        "Cannot read properties of null (reading 'text')")))
| step182 l :
    step params validationData (Running L182 l)
      (Halted (Normal (varFeedback l))).

(** Any number of transitions. *)
Inductive steps (params : Params.t) (validationData : ValidationData.t)
  : config -> config -> Prop :=
| steps_done c : steps params validationData c c
| steps_more c c' c'' :
    step params validationData c c' ->
    steps params validationData c' c'' ->
    steps params validationData c c''.

(** An evaluation of step 3, from line 150 to its end. *)
Definition evaluates (params : Params.t) (validationData : ValidationData.t)
  (result : completion string) : Prop :=
  steps params validationData initial (Halted result).

End Step.

(** ** The handler from its first line (lines 102-201)

    The two [fetch] calls are calls to the outside: the model takes what
    they answer as an input, [Network.t], one function per endpoint, and
    records every request it sends.  A response is read the way the handler
    reads it: [ok], [status], [text()] and [json()], the last two as the
    outcome of their promise; a parsed body is [null] or is read at the
    properties the handler reads. *)

(** Error objects: their [name] and [message]. *)
Module Err.
Record t : Type := mk {
  name : string;
  message : string
}.

(** The exceptions of step 3. *)
Definition ofExn (e : exn) : t := mk "TypeError" (JS.message e).
End Err.

(** What awaiting a promise gives: its value, or the error it rejects
    with. *)
Inductive outcome (A : Type) : Type :=
| Returned (a : A)
| Raised (e : Err.t).

Arguments Returned {A} a.
Arguments Raised {A} e.

Definition ofCompletion {A : Type} (c : completion A) : outcome A :=
  match c with
  | Normal a => Returned a
  | Throw e => Raised (Err.ofExn e)
  end.

Module Http.

Record Request : Type := mkRequest {
  url : string;
  method : string;
  headers : list (string * string);
  body : option string
}.

Record Response (J : Type) : Type := mkResponse {
  ok : bool;
  status : N;
  text : outcome string;
  json : outcome J
}.

Arguments mkResponse {J} ok status text json.
Arguments ok {J} r.
Arguments status {J} r.
Arguments text {J} r.
Arguments json {J} r.

End Http.

(** The parsed body of the token response: [null], or a value read at
    [access_token]. *)
Module TokenData.
Inductive t : Type :=
| Null
| mk (access_token : value).
End TokenData.

(** What [fetch] answers, at the token endpoint and at the address
    endpoint. *)
Module Network.
Record t : Type := mk {
  token : Http.Request -> outcome (Http.Response TokenData.t);
  address : Http.Request -> outcome (Http.Response ValidationData.t)
}.
End Network.

(** [process.env], at the two variables the handler reads. *)
Module Env.
Record t : Type := mk {
  USPS_CLIENT_ID : option string;
  USPS_CLIENT_SECRET : option string
}.
End Env.

(** [v || ""] on an environment variable. *)
Definition orEmpty (v : option string) : string :=
  match v with
  | Some s => s
  | None => ""
  end.

(** *** URLSearchParams: the application/x-www-form-urlencoded serializer,
    on strings of the ASCII repertoire, where a code unit is a byte of the
    UTF-8 encoding *)

Module Form.

(** The bytes the serializer leaves as they are: ASCII letters and digits
    and [*], [-], [.], [_]. *)
Definition isPlain (c : ascii) : bool :=
  let n := N_of_ascii c in
  (((48 <=? n) && (n <=? 57)) || ((65 <=? n) && (n <=? 90))
   || ((97 <=? n) && (n <=? 122))
   || (n =? 42) || (n =? 45) || (n =? 46) || (n =? 95))%N.

Definition hexDigit (n : N) : ascii :=
  if (n <? 10)%N then ascii_of_N (48 + n) else ascii_of_N (55 + n).

(** [%XX], with uppercase hexadecimal digits. *)
Definition percentEncode (c : ascii) : string :=
  String "%" (String (hexDigit (N_of_ascii c / 16))
                (String (hexDigit (N_of_ascii c mod 16)) "")).

Definition encodeByte (c : ascii) : string :=
  if Ascii.eqb c " " then "+"
  else if isPlain c then String c ""
  else percentEncode c.

Fixpoint encode (s : string) : string :=
  match s with
  | EmptyString => EmptyString
  | String c s' => encodeByte c ++ encode s'
  end.

(** The serialization of a list of name-value pairs. *)
Definition serialize (pairs : list (string * string)) : string :=
  String.concat "&"
    (map (fun p => encode (fst p) ++ "=" ++ encode (snd p)) pairs).

End Form.

(** *** Steps 1 and 2: the two requests *)

(** The request of lines 105-115. *)
Definition tokenRequest (env : Env.t) : Http.Request :=
  Http.mkRequest "https://apis.usps.com/oauth2/v3/token" "POST"
    [("Content-Type", "application/x-www-form-urlencoded")]
    (Some (Form.serialize
             [("grant_type", "client_credentials");
              ("client_id", orEmpty (Env.USPS_CLIENT_ID env));
              ("client_secret", orEmpty (Env.USPS_CLIENT_SECRET env))])).

(** The parameters appended in lines 126-131; [if(params.zipCode)] skips a
    missing ZIP code and an empty one. *)
Definition searchParams (params : Params.t) : list (string * string) :=
  ([("streetAddress", Params.streetAddress params);
    ("city", Params.city params);
    ("state", Params.state params)]
   ++ match Params.zipCode params with
      | Some zip => if String.eqb zip "" then [] else [("ZIPCode", zip)]
      | None => []
      end)%list.

(** [validationUrl.toString()] *)
Definition validationUrl (params : Params.t) : string :=
  "https://apis.usps.com/addresses/v3/address" ++ "?"
  ++ Form.serialize (searchParams params).

(** The request of lines 133-139. *)
Definition validationRequest (params : Params.t) (accessToken : value)
  : Http.Request :=
  Http.mkRequest (validationUrl params) "GET"
    [("Authorization", "Bearer " ++ ToString accessToken);
     ("Content-Type", "application/json")]
    None.

(** [${validationResponse.status}] *)
Definition statusText (status : N) : string :=
  NilEmpty.string_of_uint (N.to_uint status).

(** *** The handler *)

(** An argument of [console.error] after the label. *)
Inductive logged : Type :=
| LoggedText (s : string)
| LoggedError (e : Err.t).

(** What the handler leaves behind: the calls of [console.error] and the
    requests sent, each in order. *)
Module World.
Record t : Type := mk {
  errors : list (string * logged);
  sent : list Http.Request
}.
End World.

(** Code that runs in a world and returns or throws. *)
Definition run (A : Type) : Type := World.t -> outcome A * World.t.

Definition ret {A : Type} (a : A) : run A := fun w => (Returned a, w).

Definition throw {A : Type} (e : Err.t) : run A := fun w => (Raised e, w).

Definition andThen {A B : Type} (c : run A) (k : A -> run B) : run B :=
  fun w =>
    match c w with
    | (Returned a, w') => k a w'
    | (Raised e, w') => (Raised e, w')
    end.

Notation "x <-- c ;; k" := (andThen c (fun x => k))
  (at level 61, c at next level, right associativity).

(** [await p] for a promise whose outcome is known. *)
Definition await {A : Type} (p : outcome A) : run A := fun w => (p, w).

(** [await fetch(...)]: the request goes out, the endpoint answers. *)
Definition fetch {R : Type} (endpoint : Http.Request -> outcome R)
  (request : Http.Request) : run R :=
  fun w =>
    (endpoint request,
     World.mk (World.errors w) (World.sent w ++ [request])%list).

(** [console.error(label, arg)] *)
Definition consoleError (label : string) (arg : logged) : run unit :=
  fun w =>
    (Returned tt,
     World.mk (World.errors w ++ [(label, arg)])%list (World.sent w)).

(** [try { body } catch (error) { handler }] *)
Definition tryCatch {A : Type} (body : run A) (handler : Err.t -> run A)
  : run A :=
  fun w =>
    match body w with
    | (Returned a, w') => (Returned a, w')
    | (Raised e, w') => handler e w'
    end.

(** The [try] block, up to the text of the result (lines 104-189). *)
Definition tryBlock (env : Env.t) (net : Network.t) (params : Params.t)
  : run string :=
  tokenResponse <-- fetch (Network.token net) (tokenRequest env) ;;
  if negb (Http.ok tokenResponse) then
    throw (Err.mk "Error" "Failed to get USPS access token")
  else
    tokenData <-- await (Http.json tokenResponse) ;;
    accessToken <--
      match tokenData with
      | TokenData.mk access_token => ret access_token
      | TokenData.Null =>
          throw (Err.mk "TypeError"
                   "Cannot read properties of null (reading 'access_token')")
      end ;;
    validationResponse <--
      fetch (Network.address net) (validationRequest params accessToken) ;;
    if negb (Http.ok validationResponse) then
      errorText <-- await (Http.text validationResponse) ;;
      _ <-- consoleError "USPS API Error:" (LoggedText errorText) ;;
      throw (Err.mk "Error"
               ("Failed to validate address with USPS API. Status: "
                ++ statusText (Http.status validationResponse)))
    else
      validationData <-- await (Http.json validationResponse) ;;
      await (ofCompletion (feedback params validationData)).

(** The handler of the [validate-address] tool (lines 102-201). *)
Definition handler (env : Env.t) (net : Network.t) (params : Params.t)
  : run ToolResult :=
  tryCatch
    (feedback <-- tryBlock env net params ;;
     ret (mkResult [mkContent "text" feedback]))
    (fun error =>
       _ <-- consoleError "Error in validateAddress tool:"
               (LoggedError error) ;;
       ret (mkResult [mkContent "text" ("Error: " ++ Err.message error)])).

(** *** Vocabulary of the statements about the handler *)

(** A submission of the ASCII repertoire. *)
Definition asciiParams (params : Params.t) : bool :=
  isAscii (Params.streetAddress params)
  && isAscii (Params.city params)
  && isAscii (Params.state params)
  && match Params.zipCode params with
     | Some zip => isAscii zip
     | None => true
     end.

(** The ZIP code that reaches the request, if any. *)
Definition sentZip (params : Params.t) : option string :=
  match Params.zipCode params with
  | Some zip => if String.eqb zip "" then None else Some zip
  | None => None
  end.

(** How often a code unit occurs in a string. *)
Fixpoint occurrences (c : ascii) (s : string) : nat :=
  match s with
  | EmptyString => 0
  | String d s' => (if Ascii.eqb c d then 1 else 0) + occurrences c s'
  end.

(** The code units a serialized query is made of. *)
Definition isQueryChar (c : ascii) : bool :=
  Form.isPlain c || Ascii.eqb c "+" || Ascii.eqb c "%"
  || Ascii.eqb c "=" || Ascii.eqb c "&".

Fixpoint allChars (P : ascii -> bool) (s : string) : bool :=
  match s with
  | EmptyString => true
  | String c s' => P c && allChars P s'
  end.

(** The code units an encoded name or value is made of. *)
Definition isValueChar (c : ascii) : bool :=
  Form.isPlain c || Ascii.eqb c "+" || Ascii.eqb c "%".

(** The value of a hexadecimal digit. *)
Definition hexValue (c : ascii) : option N :=
  let n := N_of_ascii c in
  if ((48 <=? n) && (n <=? 57))%N then Some (n - 48)%N
  else if ((65 <=? n) && (n <=? 70))%N then Some (n - 55)%N
  else None.

(** The inverse of [Form.encode], used to show that nothing is lost. *)
Fixpoint formDecode (s : string) : option string :=
  match s with
  | EmptyString => Some EmptyString
  | String c rest =>
      if Ascii.eqb c "%" then
        match rest with
        | String h (String l rest') =>
            match hexValue h, hexValue l, formDecode rest' with
            | Some a, Some b, Some t =>
                Some (String (ascii_of_N (16 * a + b)) t)
            | _, _, _ => None
            end
        | _ => None
        end
      else
        match formDecode rest with
        | Some t => Some (String (if Ascii.eqb c "+" then " "%char else c) t)
        | None => None
        end
  end.

(** The access token the handler goes on with: the one of the parsed body
    of an [ok] answer of the token endpoint, when that body is not [null]. *)
Definition grantedToken (env : Env.t) (net : Network.t) : option value :=
  match Network.token net (tokenRequest env) with
  | Returned response =>
      if Http.ok response then
        match Http.json response with
        | Returned (TokenData.mk access_token) => Some access_token
        | _ => None
        end
      else None
  | Raised _ => None
  end.

(** The result with one text item. *)
Definition textResult (t : string) : ToolResult :=
  mkResult [mkContent "text" t].

(** The old console, seen in the new one. *)
Definition loggedOf (entry : string * exn) : string * logged :=
  (fst entry, LoggedError (Err.ofExn (snd entry))).

(** Networks for the examples: a token endpoint that answers with a token,
    and an address endpoint that answers with a parsed body. *)
Module SampleNet.

Definition tokenOk (token : string)
  : Http.Request -> outcome (Http.Response TokenData.t) :=
  fun _ =>
    Returned (Http.mkResponse true 200 (Returned "")
                (Returned (TokenData.mk (JString token)))).

Definition tokenDenied
  : Http.Request -> outcome (Http.Response TokenData.t) :=
  fun _ =>
    Returned (Http.mkResponse false 401 (Returned "denied")
                (Raised (Err.mk "SyntaxError" "Unexpected token"))).

Definition addressOk (validationData : ValidationData.t)
  : Http.Request -> outcome (Http.Response ValidationData.t) :=
  fun _ =>
    Returned (Http.mkResponse true 200 (Returned "")
                (Returned validationData)).

Definition addressStatus (status : N) (bodyText : string)
  : Http.Request -> outcome (Http.Response ValidationData.t) :=
  fun _ =>
    Returned (Http.mkResponse false status (Returned bodyText)
                (Raised (Err.mk "SyntaxError" "Unexpected token"))).

Definition down {R : Type} : Http.Request -> outcome R :=
  fun _ => Raised (Err.mk "TypeError" "fetch failed").

Definition env : Env.t := Env.mk (Some "id") (Some "secret").

Definition start : World.t := World.mk [] [].

End SampleNet.

Example feedback_confirmed :
  feedback (Sample.params "123 Main St") (Sample.matched "123 MAIN ST" "Y")
  = Normal "Address is valid.".
Proof. reflexivity. Qed.

Example feedback_secondary_missing :
  feedback (Sample.params "123 Main St") (Sample.matched "123 MAIN ST" "D")
  = Normal "Address could be more accurate. Suggested address: 123 MAIN ST, Springfield, IL 62704-1234".
Proof. reflexivity. Qed.

Example feedback_corrected :
  feedback (Sample.params "123 Main Street") (Sample.matched "123 Main St" "Y")
  = Normal "Address was corrected. Suggested address: 123 Main St, Springfield, IL 62704-1234".
Proof. reflexivity. Qed.

Example feedback_no_match_code :
  feedback (Sample.params "123 Main St") (Sample.matched "123 Main St" "N")
  = Normal "Address is invalid.".
Proof. reflexivity. Qed.

Example feedback_unmatched_reason :
  feedback (Sample.params "1 Nowhere") (Sample.unmatched ["Address Not Found."; "x"])
  = Normal "Invalid Address. Reason: Address Not Found.".
Proof. reflexivity. Qed.

Example feedback_unmatched_no_reason :
  feedback (Sample.params "1 Nowhere") Sample.empty
  = Normal "Address is invalid.".
Proof. reflexivity. Qed.

Example feedback_padded :
  feedback (Sample.params "  123 main st ") (Sample.matched "123 Main St  " "S")
  = Normal "Address could be more accurate. Suggested address: 123 Main St  , Springfield, IL 62704-1234".
Proof. reflexivity. Qed.

Example feedback_street_missing :
  feedback (Sample.params "123 Main St")
    (ValidationData.mk
       (Some (Address.mk JUndefined (JString "Springfield") (JString "IL")
                (JString "62704") (JString "1234")))
       None None)
  = Throw (TypeError "Cannot read properties of undefined (reading 'trim')").
Proof. reflexivity. Qed.

Example handler_street_missing :
  validateAddress (Sample.params "123 Main St")
    (ValidationData.mk
       (Some (Address.mk JNull (JString "Springfield") (JString "IL")
                (JString "62704") (JString "1234")))
       None None) []
  = (mkResult
       [mkContent "text"
          "Error: Cannot read properties of null (reading 'trim')"],
     [("Error in validateAddress tool:",
       TypeError "Cannot read properties of null (reading 'trim')")]).
Proof. reflexivity. Qed.

Example handler_confirmed :
  validateAddress (Sample.params "123 Main St")
    (Sample.matched "123 MAIN ST" "Y") []
  = (mkResult [mkContent "text" "Address is valid."], []).
Proof. reflexivity. Qed.

Example feedback_zip4_null :
  feedback (Sample.params "123 Main St")
    (ValidationData.mk
       (Some (Address.mk (JString "123 MAIN ST") (JString "Springfield")
                (JString "IL") (JString "62704") JNull))
       (Some (AdditionalInfo.mk (JString "D"))) None)
  = Normal "Address could be more accurate. Suggested address: 123 MAIN ST, Springfield, IL 62704-null".
Proof. reflexivity. Qed.

Example feedback_error_without_text :
  feedback (Sample.params "1 Nowhere Rd")
    (ValidationData.mk None None (Some [Some (ErrorItem.mk JUndefined)]))
  = Normal "Invalid Address. Reason: undefined".
Proof. reflexivity. Qed.

Example feedback_error_null :
  feedback (Sample.params "1 Nowhere Rd")
    (ValidationData.mk None None (Some [None]))
  = Throw (TypeError "Cannot read properties of null (reading 'text')").
Proof. reflexivity. Qed.

Example feedback_body_null :
  feedback (Sample.params "1 Nowhere Rd") ValidationData.Null
  = Throw (TypeError "Cannot read properties of null (reading 'address')").
Proof. reflexivity. Qed.

Example feedback_street_number :
  feedback (Sample.params "123 Main St")
    (ValidationData.mk
       (Some (Address.mk (JOther "123") (JString "Springfield")
                (JString "IL") (JString "62704") (JString "1234")))
       None None)
  = Throw (TypeError
             "validationData.address.streetAddress.trim is not a function").
Proof. reflexivity. Qed.

Example feedback_zip_number :
  feedback (Sample.params "123 Main St")
    (ValidationData.mk
       (Some (Address.mk (JString "123 MAIN ST") (JString "Springfield")
                (JString "IL") (JOther "62704") JUndefined))
       (Some (AdditionalInfo.mk (JString "S"))) None)
  = Normal "Address could be more accurate. Suggested address: 123 MAIN ST, Springfield, IL 62704-undefined".
Proof. reflexivity. Qed.

Example compare_internal_whitespace :
  toUpperCase (trim "123  Main St") <> toUpperCase (trim "123 Main St").
Proof. vm_compute. discriminate. Qed.

Example compare_punctuation :
  toUpperCase (trim "123 Main St.") <> toUpperCase (trim "123 Main St").
Proof. vm_compute. discriminate. Qed.

Example compare_tabs_and_newlines :
  trim (String "009" (String "010" "123 Main St") ++ String "013" " ")
  = "123 Main St".
Proof. reflexivity. Qed.

(** ** Facts about strings *)

Section StringFacts.

Lemma append_empty_r (s : string) : s ++ "" = s.
Proof. induction s as [|c s IH]; simpl; [reflexivity | now rewrite IH]. Qed.

Lemma append_assoc (s t u : string) : (s ++ t) ++ u = s ++ t ++ u.
Proof. induction s as [|c s IH]; simpl; [reflexivity | now rewrite IH]. Qed.

Lemma append_inv_head (p a b : string) : p ++ a = p ++ b -> a = b.
Proof.
  induction p as [|c p IH]; simpl; intro H; [exact H|].
  injection H as H. auto.
Qed.

Lemma allAscii_complete (a : ascii) : In a allAscii.
Proof.
  unfold allAscii. apply in_map_iff. exists (nat_of_ascii a). split.
  - apply ascii_nat_embedding.
  - apply in_seq. pose proof (nat_ascii_bounded a). lia.
Qed.

Lemma forall_ascii2 (P : ascii -> ascii -> bool) :
  forallb (fun a => forallb (P a) allAscii) allAscii = true ->
  forall a b, P a b = true.
Proof.
  intros H a b. rewrite forallb_forall in H.
  specialize (H a (allAscii_complete a)).
  rewrite forallb_forall in H. apply H, allAscii_complete.
Qed.

(** Case variants are the code units with one uppercase form. *)
Lemma caseVariant_upperChar (a b : ascii) :
  caseVariant a b = true <-> upperChar a = upperChar b.
Proof.
  rewrite <- Ascii.eqb_eq.
  pose proof (forall_ascii2
    (fun x y => Bool.eqb (caseVariant x y)
                  (Ascii.eqb (upperChar x) (upperChar y)))) as H.
  specialize (H ltac:(vm_compute; reflexivity) a b). cbv beta in H.
  apply Bool.eqb_prop in H. rewrite H. tauto.
Qed.

(** Whitespace has no case. *)
Lemma caseVariant_isWhiteSpace (a b : ascii) :
  caseVariant a b = true -> isWhiteSpace a = isWhiteSpace b.
Proof.
  pose proof (forall_ascii2
    (fun x y => implb (caseVariant x y)
                  (Bool.eqb (isWhiteSpace x) (isWhiteSpace y)))) as H.
  specialize (H ltac:(vm_compute; reflexivity) a b). cbv beta in H.
  intro Hv. rewrite Hv in H. simpl in H. now apply Bool.eqb_prop.
Qed.

(** A case variant of anything but a letter (a digit, a space, a
    punctuation mark) is that code unit itself. *)
Lemma caseVariant_not_letter (a b : ascii) :
  caseVariant a b = true -> isLetter a = false -> b = a.
Proof.
  pose proof (forall_ascii2
    (fun x y => implb (caseVariant x y && negb (isLetter x))
                  (Ascii.eqb y x))) as H.
  specialize (H ltac:(vm_compute; reflexivity) a b). cbv beta in H.
  intros Hv Hl. rewrite Hv, Hl in H. simpl in H. now apply Ascii.eqb_eq.
Qed.

(** So strings that are the same up to case agree on everything that is
    not a letter, position by position. *)
Lemma sameUpToCase_not_letter (s t : string) (i : nat) (a : ascii) :
  sameUpToCase s t = true ->
  String.get i s = Some a -> isLetter a = false ->
  String.get i t = Some a.
Proof.
  revert t i. induction s as [|c s IH]; intros [|d t] i; simpl;
    try discriminate.
  intros [Hcd Hst]%andb_true_iff. destruct i as [|i].
  - intros [= ->] Hl. now rewrite (caseVariant_not_letter _ _ Hcd Hl).
  - now apply IH.
Qed.

Lemma sameUpToCase_length (s t : string) :
  sameUpToCase s t = true -> String.length s = String.length t.
Proof.
  revert t. induction s as [|c s IH]; intros [|d t]; simpl;
    try discriminate; [reflexivity|].
  intros [_ Hst]%andb_true_iff. now rewrite (IH _ Hst).
Qed.

Lemma sameUpToCase_toUpperCase (s t : string) :
  sameUpToCase s t = true <-> toUpperCase s = toUpperCase t.
Proof.
  revert t. induction s as [|a s IH]; intros [|b t]; simpl;
    try (split; [reflexivity || discriminate | reflexivity || discriminate]).
  rewrite andb_true_iff, caseVariant_upperChar, IH. split.
  - intros [-> ->]. reflexivity.
  - intro H. injection H as H1 H2. auto.
Qed.

Lemma trimStart_allWhiteSpace (s : string) :
  allWhiteSpace s = true -> trimStart s = "".
Proof.
  induction s as [|c s IH]; simpl; [reflexivity|].
  intros [Hc Hs]%andb_true_iff. rewrite Hc. auto.
Qed.

Lemma trimEnd_allWhiteSpace (s : string) :
  allWhiteSpace s = true -> trimEnd s = "".
Proof.
  induction s as [|c s IH]; simpl; [reflexivity|].
  intros [Hc Hs]%andb_true_iff. rewrite (IH Hs), Hc. reflexivity.
Qed.

Lemma trimStart_skip (l s : string) :
  allWhiteSpace l = true -> trimStart (l ++ s) = trimStart s.
Proof.
  induction l as [|c l IH]; simpl; [reflexivity|].
  intros [Hc Hl]%andb_true_iff. rewrite Hc. auto.
Qed.

Lemma trimEnd_skip (s r : string) :
  allWhiteSpace r = true -> trimEnd (s ++ r) = trimEnd s.
Proof.
  intro Hr. induction s as [|c s IH]; simpl.
  - now apply trimEnd_allWhiteSpace.
  - rewrite IH. reflexivity.
Qed.

Lemma trimStart_append (s r : string) :
  trimStart (s ++ r) =
  if allWhiteSpace s then trimStart r else trimStart s ++ r.
Proof.
  induction s as [|c s IH]; simpl; [reflexivity|].
  destruct (isWhiteSpace c); simpl; [exact IH | reflexivity].
Qed.

(** Whitespace around a string does not change what [trim] returns. *)
Lemma trim_frame (l c r : string) :
  allWhiteSpace l = true -> allWhiteSpace r = true ->
  trim (l ++ c ++ r) = trim c.
Proof.
  intros Hl Hr. unfold trim.
  rewrite (trimStart_skip _ _ Hl), trimStart_append.
  destruct (allWhiteSpace c) eqn:Hc.
  - now rewrite (trimStart_allWhiteSpace _ Hr), (trimStart_allWhiteSpace _ Hc).
  - now apply trimEnd_skip.
Qed.

Lemma trimStart_split (s : string) :
  exists l, allWhiteSpace l = true /\ s = l ++ trimStart s.
Proof.
  induction s as [|c s [l [Hl Hs]]]; simpl.
  - exists "". auto.
  - destruct (isWhiteSpace c) eqn:Hc.
    + exists (String c l). simpl. rewrite Hc, Hl, <- Hs. auto.
    + exists "". auto.
Qed.

Lemma trimEnd_split (s : string) :
  exists r, allWhiteSpace r = true /\ s = trimEnd s ++ r.
Proof.
  induction s as [|c s [r [Hr Hs]]]; simpl.
  - exists "". auto.
  - destruct (trimEnd s) as [|d t] eqn:Ht.
    + simpl in Hs. subst s. destruct (isWhiteSpace c) eqn:Hc.
      * exists (String c r). simpl. rewrite Hc, Hr. auto.
      * exists r. auto.
    + exists r. split; [exact Hr|]. simpl. now rewrite Hs at 1.
Qed.

(** [trim] removes a run of whitespace at each end, and nothing else. *)
Lemma trim_split (s : string) :
  exists l r,
    allWhiteSpace l = true /\ allWhiteSpace r = true /\
    s = l ++ trim s ++ r.
Proof.
  destruct (trimStart_split s) as [l [Hl Hs]].
  destruct (trimEnd_split (trimStart s)) as [r [Hr Ht]].
  exists l, r. repeat split; try assumption.
  unfold trim. now rewrite <- Ht.
Qed.

Lemma sameUpToCase_trimStart (s t : string) :
  sameUpToCase s t = true ->
  sameUpToCase (trimStart s) (trimStart t) = true.
Proof.
  revert t. induction s as [|a s IH]; intros [|b t]; simpl;
    try discriminate; [reflexivity|].
  intros [Hab Hst]%andb_true_iff.
  rewrite <- (caseVariant_isWhiteSpace _ _ Hab).
  destruct (isWhiteSpace a); simpl; [auto | now rewrite Hab, Hst].
Qed.

Lemma sameUpToCase_trimEnd (s t : string) :
  sameUpToCase s t = true ->
  sameUpToCase (trimEnd s) (trimEnd t) = true.
Proof.
  revert t. induction s as [|a s IH]; intros [|b t]; simpl;
    try discriminate; [reflexivity|].
  intros [Hab Hst]%andb_true_iff. specialize (IH _ Hst).
  rewrite <- (caseVariant_isWhiteSpace _ _ Hab).
  destruct (trimEnd s) as [|a' s'], (trimEnd t) as [|b' t'];
    try discriminate.
  - destruct (isWhiteSpace a); simpl; [reflexivity | now rewrite Hab].
  - simpl in *. now rewrite Hab, IH.
Qed.

(** The comparison of line 163 sees neither case nor outer whitespace. *)
Lemma normalized_same (s t : string) :
  differOnlyInCaseOrOuterWhiteSpace s t ->
  toUpperCase (trim s) = toUpperCase (trim t).
Proof.
  intros (l1 & c1 & r1 & l2 & c2 & r2 & -> & -> & Hl1 & Hr1 & Hl2 & Hr2 & Hc).
  rewrite !trim_frame by assumption.
  apply sameUpToCase_toUpperCase. unfold trim.
  now apply sameUpToCase_trimEnd, sameUpToCase_trimStart.
Qed.


End StringFacts.

(** ** Facts about the verdicts *)

(** Different verdicts have different texts. *)
Lemma render_inj (v v' : Verdict) : render v = render v' -> v = v'.
Proof.
  destruct v as [|a|a|[r|]], v' as [|a'|a'|[r'|]]; intro H;
    try reflexivity; try (cbn in H; discriminate H);
    apply append_inv_head in H; now subst.
Qed.

Lemma Normal_inj {A : Type} (a b : A) : Normal a = Normal b -> a = b.
Proof. intro H. now injection H. Qed.

(** The street comparison of line 163, decided. *)
Lemma street_test (params : Params.t) (verified : string) :
  negb (String.eqb (originalStreet params) (toUpperCase (trim verified)))
  = false <->
  originalStreet params = toUpperCase (trim verified).
Proof. rewrite negb_false_iff. apply String.eqb_eq. Qed.

(** The matched branch, once the verified street is known to be a string. *)
Lemma feedback_matched (params : Params.t) (validationData : ValidationData.t)
  (address : Address.t) (verified : string) :
  ValidationData.address validationData = Some address ->
  Address.streetAddress address = JString verified ->
  feedback params validationData =
  Normal
    (if negb (String.eqb (originalStreet params) (toUpperCase (trim verified)))
     then render (CorrectedSuggestion (suggestedAddress address))
     else if strictEq (DPVConfirmation validationData) "Y"
     then render Valid
     else if strictEq (DPVConfirmation validationData) "D"
             || strictEq (DPVConfirmation validationData) "S"
     then render (AccuracySuggestion (suggestedAddress address))
     else render (Invalid None)).
Proof.
  intros Ha Hs. destruct validationData as [|a info errs];
    [discriminate Ha|].
  unfold feedback, returnedStreet. rewrite Ha, Hs. simpl bind.
  destruct (negb _); [reflexivity|].
  destruct (strictEq _ "Y"); [reflexivity|].
  destruct (_ || _); reflexivity.
Qed.

(** A feedback text on a response with an address: the street is a
    string. *)
Lemma feedback_matched_Normal (params : Params.t)
  (validationData : ValidationData.t) (address : Address.t) (fb : string) :
  ValidationData.address validationData = Some address ->
  feedback params validationData = Normal fb ->
  exists verified, Address.streetAddress address = JString verified.
Proof.
  intros Ha H. destruct validationData as [|a info errs];
    [discriminate Ha|].
  unfold feedback, returnedStreet in H. rewrite Ha in H.
  destruct (Address.streetAddress address) as [| |verified|r];
    try discriminate H.
  eauto.
Qed.

(** The unmatched branch. *)
Lemma feedback_unmatched (params : Params.t)
  (info : option AdditionalInfo.t)
  (errors : option (list (option ErrorItem.t))) :
  feedback params (ValidationData.mk None info errors) =
  match errors with
  | Some (Some error0 :: _) =>
      Normal (render (Invalid (Some (ToString (ErrorItem.text error0)))))
  | Some (None :: _) =>
      Throw (TypeError "Cannot read properties of null (reading 'text')")
  | _ => Normal (render (Invalid None))
  end.
Proof. destruct errors as [[|[e|] rest]|]; reflexivity. Qed.

(** What is left of the feedback of a response without an address once it
    is known to be a text. *)
Lemma feedback_unmatched_Normal (params : Params.t)
  (validationData : ValidationData.t) (fb : string) :
  ValidationData.address validationData = None ->
  feedback params validationData = Normal fb ->
  exists reason, fb = render (Invalid reason).
Proof.
  intros Ha H. destruct validationData as [|a info errs];
    [discriminate H|].
  simpl in Ha. subst a. rewrite feedback_unmatched in H.
  destruct errs as [[|[e|] rest]|];
    try discriminate H; apply Normal_inj in H; subst fb; eauto.
Qed.

Lemma strictEq_true (v : value) (lit : string) :
  strictEq v lit = true <-> v = JString lit.
Proof.
  destruct v as [| |s|r]; simpl; try (split; discriminate).
  rewrite String.eqb_eq. split; [now intros -> | intro H; now injection H].
Qed.

Lemma strictEq_false (v : value) (lit : string) :
  strictEq v lit = false <-> v <> JString lit.
Proof.
  rewrite <- strictEq_true. destruct (strictEq v lit); split;
    congruence.
Qed.

(** ** The properties of the feedback *)






(** C3. Confirmed and matching gives Valid: on a match whose street equals
    the submitted one after trimming and uppercasing, with confirmation code
    [Y], the feedback is the Valid verdict; in particular when the two
    streets differ only in case or in leading and trailing whitespace. *)
Theorem confirmed_match_valid (params : Params.t)
  (validationData : ValidationData.t) (address : Address.t)
  (verified : string) :
  ValidationData.address validationData = Some address ->
  Address.streetAddress address = JString verified ->
  DPVConfirmation validationData = JString "Y" ->
  (originalStreet params = toUpperCase (trim verified) ->
   feedback params validationData = Normal (render Valid)) /\
  (differOnlyInCaseOrOuterWhiteSpace (Params.streetAddress params) verified ->
   feedback params validationData = Normal (render Valid)).
Proof.
  intros Ha Hs Hy.
  assert (originalStreet params = toUpperCase (trim verified) ->
          feedback params validationData = Normal (render Valid)) as H.
  { intro Heq. rewrite (feedback_matched _ _ _ _ Ha Hs).
    apply street_test in Heq. rewrite Heq, Hy. reflexivity. }
  split; [exact H|].
  intro Hd. apply H. unfold originalStreet. now apply normalized_same.
Qed.

Lemma confirmed_match_valid_witness :
  feedback (Sample.params "123 Main St") (Sample.matched "123 MAIN ST" "Y")
  = Normal "Address is valid." /\
  feedback (Sample.params "  123 main st ") (Sample.matched "123 Main St" "Y")
  = Normal "Address is valid.".
Proof.
  split.
  - apply (proj1 (confirmed_match_valid (Sample.params "123 Main St")
                    (Sample.matched "123 MAIN ST" "Y")
                    (Sample.address "123 MAIN ST") "123 MAIN ST"
                    eq_refl eq_refl eq_refl)).
    reflexivity.
  - apply (proj2 (confirmed_match_valid (Sample.params "  123 main st ")
                    (Sample.matched "123 Main St" "Y")
                    (Sample.address "123 Main St") "123 Main St"
                    eq_refl eq_refl eq_refl)).
    exists "  ", "123 main st", " ", "", "123 Main St", "".
    repeat split; reflexivity.
Defined.







(** C7, as the code has it.  Totality: on a well-formed response (a body
    that is not [null] and that either carries an address with its five
    fields, or carries no address and has [errors] missing, empty or starting
    with an object whose text is a string or is missing) the feedback is the
    text of exactly one verdict, nothing is thrown, and the handler returns
    that text without entering its [catch] branch: the console is left as
    it was. *)
Theorem evaluate_total (params : Params.t)
  (validationData : ValidationData.t) :
  wellFormed validationData = true ->
  exists v : Verdict,
    feedback params validationData = Normal (render v) /\
    (forall v', feedback params validationData = Normal (render v') ->
                v' = v) /\
    (forall log,
        validateAddress params validationData log =
        (mkResult [mkContent "text" (render v)], log)).
Proof.
  intro Hwf.
  assert (exists v, feedback params validationData = Normal (render v))
    as [v Hv].
  { destruct validationData as [|[address|] info errs];
      [discriminate Hwf| |].
    - unfold wellFormed, completeAddress in Hwf.
      destruct (Address.streetAddress address) as [| |verified|r] eqn:Hs;
        try discriminate Hwf.
      rewrite (feedback_matched params
                 (ValidationData.mk (Some address) info errs)
                 address verified eq_refl Hs).
      destruct (negb _); [eauto|].
      destruct (strictEq _ "Y"); [eauto|].
      destruct (_ || _); eauto.
    - rewrite feedback_unmatched.
      destruct errs as [[|[e|] rest]|]; try discriminate Hwf; eauto. }
  exists v. split; [exact Hv|]. split.
  - intros v' Hv'. rewrite Hv in Hv'.
    apply Normal_inj, render_inj in Hv'. now symmetry.
  - intro log. unfold validateAddress. rewrite Hv. reflexivity.
Qed.

Lemma evaluate_total_witness :
  exists v : Verdict,
    feedback (Sample.params "123 Main St") (Sample.matched "123 MAIN ST" "D")
    = Normal (render v) /\
    (forall v',
        feedback (Sample.params "123 Main St")
          (Sample.matched "123 MAIN ST" "D") = Normal (render v') ->
        v' = v) /\
    (forall log,
        validateAddress (Sample.params "123 Main St")
          (Sample.matched "123 MAIN ST" "D") log =
        (mkResult [mkContent "text" (render v)], log)).
Proof.
  apply (evaluate_total (Sample.params "123 Main St")
           (Sample.matched "123 MAIN ST" "D")).
  reflexivity.
Defined.

(** C7 as the specification states it fails: this response carries no address, so
    it is an unmatched one, and yet step 3 throws on it and the handler
    answers from its [catch] branch. *)
Lemma evaluate_total_counterexample :
  ValidationData.address (ValidationData.mk None None (Some [None])) = None /\
  feedback (Sample.params "1 Nowhere Rd")
    (ValidationData.mk None None (Some [None]))
  = Throw (TypeError "Cannot read properties of null (reading 'text')") /\
  validateAddress (Sample.params "1 Nowhere Rd")
    (ValidationData.mk None None (Some [None])) []
  = (mkResult
       [mkContent "text"
          "Error: Cannot read properties of null (reading 'text')"],
     [("Error in validateAddress tool:",
       TypeError "Cannot read properties of null (reading 'text')")]).
Proof. repeat split. Qed.

(** Facts about the transition system of step 3. *)

(** From a configuration there is at most one transition. *)
Lemma step_deterministic (params : Params.t)
  (validationData : ValidationData.t) (c c1 c2 : Step.config) :
  Step.step params validationData c c1 ->
  Step.step params validationData c c2 ->
  c1 = c2.
Proof.
  intros H1 H2.
  inversion H1; subst; inversion H2; subst;
    try reflexivity; try congruence;
    repeat match goal with
      | H : _ \/ _ |- _ => destruct H
      end;
    try congruence.
  - match goal with
    | Ha : ValidationData.address _ = Some ?a,
      Hb : ValidationData.address _ = Some ?b |- _ =>
        rewrite Ha in Hb; injection Hb as <-
    end.
    match goal with
    | Hs : Address.streetAddress _ = JString _,
      Ht : callTrim _ = Throw _ |- _ =>
        rewrite Hs in Ht; discriminate Ht
    end.
  - match goal with
    | Ha : ValidationData.address _ = Some ?a,
      Hb : ValidationData.address _ = Some ?b |- _ =>
        rewrite Ha in Hb; injection Hb as <-
    end.
    match goal with
    | Hs : Address.streetAddress _ = JString _,
      Ht : callTrim _ = Throw _ |- _ =>
        rewrite Hs in Ht; discriminate Ht
    end.
Qed.

(** An evaluation that is over makes no transition. *)
Lemma halted_stuck (params : Params.t) (validationData : ValidationData.t)
  (result : completion string) (c : Step.config) :
  ~ Step.step params validationData (Step.Halted result) c.
Proof. intro H. inversion H. Qed.

Lemma steps_result_unique (params : Params.t)
  (validationData : ValidationData.t) (c : Step.config)
  (r1 r2 : completion string) :
  Step.steps params validationData c (Step.Halted r1) ->
  Step.steps params validationData c (Step.Halted r2) ->
  r1 = r2.
Proof.
  intro H1. remember (Step.Halted r1) as final eqn:Hf.
  induction H1 as [c|c c' c'' Hstep Hrest IH]; intro H2.
  - subst c. inversion H2 as [|? ? ? Hstep' _]; subst; [reflexivity|].
    now apply halted_stuck in Hstep'.
  - inversion H2 as [|? c2 ? Hstep' Hrest']; subst.
    + now apply halted_stuck in Hstep.
    + rewrite (step_deterministic _ _ _ _ _ Hstep' Hstep) in Hrest'. auto.
Qed.

(** The transition system reaches what [feedback] computes. *)
Lemma evaluates_feedback (params : Params.t)
  (validationData : ValidationData.t) :
  Step.evaluates params validationData (feedback params validationData).
Proof.
  unfold Step.evaluates, Step.initial.
  eapply Step.steps_more; [apply Step.step150|].
  destruct validationData as [|[address|] info errs].
  - eapply Step.steps_more; [now apply Step.step152_null|].
    apply Step.steps_done.
  - eapply Step.steps_more; [now eapply Step.step152_then|].
    eapply Step.steps_more; [apply Step.step153|].
    eapply Step.steps_more; [apply Step.step156|].
    destruct (Address.streetAddress address) as [| |verified|r] eqn:Hs.
    + eapply Step.steps_more;
        [eapply (Step.step157_throw _ _ _ address); [reflexivity|];
         rewrite Hs; reflexivity|].
      unfold feedback, returnedStreet. cbn. rewrite Hs.
      apply Step.steps_done.
    + eapply Step.steps_more;
        [eapply (Step.step157_throw _ _ _ address); [reflexivity|];
         rewrite Hs; reflexivity|].
      unfold feedback, returnedStreet. cbn. rewrite Hs.
      apply Step.steps_done.
    + eapply Step.steps_more;
        [now eapply (Step.step157 _ _ _ address verified)|].
      eapply Step.steps_more; [now eapply (Step.step159 _ _ _ address)|].
      rewrite (feedback_matched params
                 (ValidationData.mk (Some address) info errs)
                 address verified eq_refl Hs).
      destruct (String.eqb_spec (originalStreet params)
                  (toUpperCase (trim verified))) as [Heq|Hne]; cbn [negb].
      * eapply Step.steps_more; [now apply Step.step163_else|].
        destruct (strictEq _ "Y") eqn:HY.
        -- apply strictEq_true in HY.
           eapply Step.steps_more; [now apply Step.step167_then|].
           eapply Step.steps_more; [apply Step.step168|].
           eapply Step.steps_more; [apply Step.step182|].
           apply Step.steps_done.
        -- apply strictEq_false in HY.
           eapply Step.steps_more; [now apply Step.step167_else|].
           destruct (_ || _) eqn:Hor.
           ++ apply orb_true_iff in Hor.
              eapply Step.steps_more.
              { apply Step.step169_then. cbn.
                destruct Hor as [H|H]; apply strictEq_true in H; auto. }
              eapply Step.steps_more; [apply Step.step171|].
              eapply Step.steps_more; [apply Step.step182|].
              apply Step.steps_done.
           ++ apply orb_false_iff in Hor. destruct Hor as [HD HS].
              apply strictEq_false in HD, HS.
              eapply Step.steps_more; [now apply Step.step169_else|].
              eapply Step.steps_more; [apply Step.step182|].
              apply Step.steps_done.
      * eapply Step.steps_more; [now apply Step.step163_then|].
        eapply Step.steps_more; [apply Step.step164|].
        eapply Step.steps_more; [apply Step.step182|].
        apply Step.steps_done.
    + eapply Step.steps_more;
        [eapply (Step.step157_throw _ _ _ address); [reflexivity|];
         rewrite Hs; reflexivity|].
      unfold feedback, returnedStreet. cbn. rewrite Hs.
      apply Step.steps_done.
  - eapply Step.steps_more; [now eapply Step.step152_else|].
    rewrite feedback_unmatched.
    destruct errs as [[|[e|] rest]|].
    + eapply Step.steps_more; [apply Step.step177_else; now right|].
      eapply Step.steps_more; [apply Step.step182|]. apply Step.steps_done.
    + eapply Step.steps_more; [now eapply Step.step177_then|].
      eapply Step.steps_more; [now eapply Step.step178|].
      eapply Step.steps_more; [apply Step.step182|]. apply Step.steps_done.
    + eapply Step.steps_more; [now eapply Step.step177_then|].
      eapply Step.steps_more; [now eapply Step.step178_throw|].
      apply Step.steps_done.
    + eapply Step.steps_more; [apply Step.step177_else; now left|].
      eapply Step.steps_more; [apply Step.step182|]. apply Step.steps_done.
Qed.

(** C8. Determinism: step 3, run as the statements of lines 150-182 over
    its local variables, has an evaluation on every input, and two
    evaluations on the same submitted address and the same response end
    with the same result: the same verdict text, or the same error. *)
Theorem evaluate_deterministic (params params' : Params.t)
  (validationData validationData' : ValidationData.t) :
  params = params' ->
  validationData = validationData' ->
  (exists result, Step.evaluates params validationData result) /\
  (forall result result',
      Step.evaluates params validationData result ->
      Step.evaluates params' validationData' result' ->
      result = result' /\ result = feedback params validationData).
Proof.
  intros <- <-. split.
  - exists (feedback params validationData). apply evaluates_feedback.
  - intros result result' H H'. split.
    + exact (steps_result_unique _ _ _ _ _ H H').
    + exact (steps_result_unique _ _ _ _ _ H
               (evaluates_feedback params validationData)).
Qed.

Lemma evaluate_deterministic_witness :
  (exists result,
      Step.evaluates (Sample.params "123 Main St")
        (Sample.matched "123 MAIN ST" "D") result) /\
  forall result,
    Step.evaluates (Sample.params "123 Main St")
      (Sample.matched "123 MAIN ST" "D") result ->
    result =
    Normal "Address could be more accurate. Suggested address: 123 MAIN ST, Springfield, IL 62704-1234".
Proof.
  pose proof (evaluate_deterministic (Sample.params "123 Main St")
                (Sample.params "123 Main St")
                (Sample.matched "123 MAIN ST" "D")
                (Sample.matched "123 MAIN ST" "D")
                eq_refl eq_refl) as [Hex Hdet].
  split; [exact Hex|].
  intros result H. exact (proj2 (Hdet result result H H)).
Defined.



(** C10. Normalization does not reach the output: the address of every
    corrected-address and every accuracy suggestion is the verified address
    as received, the street with its own case and whitespace, in the format
    of line 159. *)
Theorem suggestion_verbatim (params : Params.t)
  (validationData : ValidationData.t) (suggested : string) :
  feedback params validationData =
    Normal (render (CorrectedSuggestion suggested)) \/
  feedback params validationData =
    Normal (render (AccuracySuggestion suggested)) ->
  exists address street,
    ValidationData.address validationData = Some address /\
    Address.streetAddress address = JString street /\
    suggested =
      street ++ ", " ++ ToString (Address.city address) ++ ", " ++
      ToString (Address.state address) ++ " " ++
      ToString (Address.ZIPCode address) ++ "-" ++
      ToString (Address.ZIPPlus4 address).
Proof.
  intro H.
  assert (exists fb, feedback params validationData = Normal fb)
    as [fb Hfb] by (destruct H; eauto).
  destruct (ValidationData.address validationData) as [address|] eqn:Ha.
  - destruct (feedback_matched_Normal _ _ _ _ Ha Hfb) as [street Hs].
    exists address, street. repeat split; try assumption.
    rewrite (feedback_matched _ _ _ _ Ha Hs) in H.
    assert (suggested = suggestedAddress address) as ->.
    { destruct (negb _); [|destruct (strictEq _ "Y");
                           [|destruct (_ || _)]];
        destruct H as [H | H]; apply Normal_inj, render_inj in H;
        congruence. }
    unfold suggestedAddress. now rewrite Hs.
  - destruct (feedback_unmatched_Normal _ _ _ Ha Hfb) as [reason ->].
    rewrite Hfb in H.
    destruct H as [H | H]; apply Normal_inj, render_inj in H; discriminate.
Qed.

Lemma suggestion_verbatim_witness :
  exists address street,
    ValidationData.address (Sample.matched " 123 main st  " "S")
    = Some address /\
    Address.streetAddress address = JString street /\
    " 123 main st  , Springfield, IL 62704-1234" =
      street ++ ", " ++ ToString (Address.city address) ++ ", " ++
      ToString (Address.state address) ++ " " ++
      ToString (Address.ZIPCode address) ++ "-" ++
      ToString (Address.ZIPPlus4 address).
Proof.
  apply (suggestion_verbatim (Sample.params "123 Main St")
           (Sample.matched " 123 main st  " "S")).
  right. reflexivity.
Defined.

(** ** Further properties of step 3 *)

(** Every feedback that is computed is the text of a verdict, also on a
    response that is not well-formed. *)
Lemma feedback_is_verdict (params : Params.t)
  (validationData : ValidationData.t) (fb : string) :
  feedback params validationData = Normal fb -> exists v, fb = render v.
Proof.
  intro H.
  destruct (ValidationData.address validationData) as [address|] eqn:Ha.
  - destruct (feedback_matched_Normal _ _ _ _ Ha H) as [verified Hs].
    rewrite (feedback_matched _ _ _ _ Ha Hs) in H.
    apply Normal_inj in H. subst fb.
    destruct (negb _); [eexists; reflexivity|].
    destruct (strictEq _ "Y"); [eexists; reflexivity|].
    destruct (_ || _); eexists; reflexivity.
  - destruct (feedback_unmatched_Normal _ _ _ Ha H) as [reason ->]. eauto.
Qed.


(** X1. The feedback reads the submitted address at its street only, and
    the street up to case and outer whitespace: the submitted city, state
    and ZIP code are not compared with anything. *)
Theorem feedback_reads_street_only (params params' : Params.t)
  (validationData : ValidationData.t) :
  differOnlyInCaseOrOuterWhiteSpace
    (Params.streetAddress params) (Params.streetAddress params') ->
  feedback params validationData = feedback params' validationData.
Proof.
  intro Hd. apply normalized_same in Hd.
  unfold feedback, originalStreet. now rewrite Hd.
Qed.

Lemma feedback_reads_street_only_witness :
  feedback (Params.mk " 123 main st" "Springfield" "IL" (Some "62704"))
    (Sample.matched "123 MAIN ST" "Y")
  = feedback (Params.mk "123 Main St  " "Chicago" "TX" None)
      (Sample.matched "123 MAIN ST" "Y").
Proof.
  apply (feedback_reads_street_only
           (Params.mk " 123 main st" "Springfield" "IL" (Some "62704"))
           (Params.mk "123 Main St  " "Chicago" "TX" None)).
  exists " ", "123 main st", "", "", "123 Main St", "  ".
  repeat split; reflexivity.
Defined.









(** X6. What of the response is read: with an address, [errors] is not
    read at all; without one, only the text of the first error is, and
    neither the submitted address nor [additionalInfo]. *)
Theorem errors_read_only_without_address :
  (forall params validationData address errors',
      ValidationData.address validationData = Some address ->
      feedback params
        (ValidationData.mk (Some address)
           (ValidationData.additionalInfo validationData) errors')
      = feedback params validationData) /\
  (forall params params' validationData info' error0 rest rest',
      ValidationData.address validationData = None ->
      ValidationData.errors validationData = Some (Some error0 :: rest) ->
      feedback params'
        (ValidationData.mk None info'
           (Some (Some (ErrorItem.mk (ErrorItem.text error0)) :: rest)%list))
      = feedback params validationData /\
      feedback params'
        (ValidationData.mk None info' (Some (Some error0 :: rest')%list))
      = feedback params validationData).
Proof.
  split.
  - intros params vd address errors' Ha.
    destruct vd as [|a info errs]; [discriminate Ha|].
    simpl in Ha. subst a. reflexivity.
  - intros params params' vd info' e rest rest' Ha He.
    destruct vd as [|a info errs]; [discriminate He|].
    simpl in Ha, He. subst a errs. rewrite !feedback_unmatched.
    split; reflexivity.
Qed.

Lemma errors_read_only_without_address_witness :
  feedback (Sample.params "123 Main St")
    (ValidationData.mk (Some (Sample.address "123 MAIN ST"))
       (Some (AdditionalInfo.mk (JString "Y")))
       (Some [Some (ErrorItem.mk (JString "Address Not Found."))]))
  = feedback (Sample.params "123 Main St") (Sample.matched "123 MAIN ST" "Y")
  /\
  feedback (Sample.params "9 Elm St")
    (ValidationData.mk None (Some (AdditionalInfo.mk (JString "Y")))
       (Some [Some (ErrorItem.mk (JString "Address Not Found."))]))
  = feedback (Sample.params "1 Nowhere Rd")
      (Sample.unmatched ["Address Not Found."; "Invalid City."]).
Proof.
  split.
  - exact (proj1 errors_read_only_without_address
             (Sample.params "123 Main St") (Sample.matched "123 MAIN ST" "Y")
             (Sample.address "123 MAIN ST")
             (Some [Some (ErrorItem.mk (JString "Address Not Found."))])
             eq_refl).
  - exact (proj2 (proj2 errors_read_only_without_address
                    (Sample.params "1 Nowhere Rd") (Sample.params "9 Elm St")
                    (Sample.unmatched ["Address Not Found."; "Invalid City."])
                    (Some (AdditionalInfo.mk (JString "Y")))
                    (ErrorItem.mk (JString "Address Not Found."))
                    [Some (ErrorItem.mk (JString "Invalid City."))] []
                    eq_refl eq_refl)).
Defined.

(** X7. Submitting the verified street again is not corrected again: when
    the submitted street is the street the response carries, the feedback
    is no corrected-address suggestion. *)
Theorem verified_street_not_corrected (params : Params.t)
  (validationData : ValidationData.t) (address : Address.t)
  (suggested : string) :
  ValidationData.address validationData = Some address ->
  Address.streetAddress address = JString (Params.streetAddress params) ->
  feedback params validationData <>
  Normal (render (CorrectedSuggestion suggested)).
Proof.
  intros Ha Hs H.
  rewrite (feedback_matched _ _ _ _ Ha Hs) in H.
  unfold originalStreet in H. rewrite String.eqb_refl in H.
  cbn [negb] in H.
  destruct (strictEq _ "Y"); [|destruct (_ || _)];
    apply Normal_inj, render_inj in H; discriminate H.
Qed.

Lemma verified_street_not_corrected_witness :
  feedback (Sample.params "123 MAIN ST") (Sample.matched "123 MAIN ST" "D")
  <> Normal (render
       (CorrectedSuggestion "123 MAIN ST, Springfield, IL 62704-1234")).
Proof.
  apply (verified_street_not_corrected (Sample.params "123 MAIN ST")
           (Sample.matched "123 MAIN ST" "D")
           (Sample.address "123 MAIN ST"));
    reflexivity.
Defined.

(** Facts about the two string methods together. *)

Lemma forall_ascii (P : ascii -> bool) :
  forallb P allAscii = true -> forall a, P a = true.
Proof.
  intros H a. rewrite forallb_forall in H. apply H, allAscii_complete.
Qed.

Lemma isWhiteSpace_upperChar (c : ascii) :
  isWhiteSpace (upperChar c) = isWhiteSpace c.
Proof.
  apply Bool.eqb_prop.
  apply (forall_ascii
           (fun x => Bool.eqb (isWhiteSpace (upperChar x)) (isWhiteSpace x))).
  vm_compute. reflexivity.
Qed.

Lemma isLower_upperChar (c : ascii) : isLower (upperChar c) = false.
Proof.
  apply negb_true_iff.
  apply (forall_ascii (fun x => negb (isLower (upperChar x)))).
  vm_compute. reflexivity.
Qed.

Lemma upperChar_not_lower (c : ascii) :
  isLower c = false -> upperChar c = c.
Proof. unfold upperChar. now intros ->. Qed.

Lemma trimStart_toUpperCase (s : string) :
  trimStart (toUpperCase s) = toUpperCase (trimStart s).
Proof.
  induction s as [|c s IH]; simpl; [reflexivity|].
  rewrite isWhiteSpace_upperChar. destruct (isWhiteSpace c); auto.
Qed.

Lemma trimEnd_toUpperCase (s : string) :
  trimEnd (toUpperCase s) = toUpperCase (trimEnd s).
Proof.
  induction s as [|c s IH]; simpl; [reflexivity|].
  rewrite IH, isWhiteSpace_upperChar.
  destruct (trimEnd s); simpl; [destruct (isWhiteSpace c)|]; reflexivity.
Qed.

Lemma trim_idempotent (s : string) : trim (trim s) = trim s.
Proof.
  destruct (trim_split s) as (l & r & Hl & Hr & Hs).
  rewrite Hs at 2. symmetry. now apply trim_frame.
Qed.

Lemma toUpperCase_idempotent (s : string) :
  toUpperCase (toUpperCase s) = toUpperCase s.
Proof.
  induction s as [|c s IH]; simpl; [reflexivity|].
  now rewrite IH, (upperChar_not_lower _ (isLower_upperChar c)).
Qed.

(** X8. The two methods of lines 156-157 commute: trimming and then
    uppercasing gives what uppercasing and then trimming gives. *)
Theorem trim_toUpperCase_commute (s : string) :
  toUpperCase (trim s) = trim (toUpperCase s).
Proof.
  unfold trim. now rewrite trimStart_toUpperCase, trimEnd_toUpperCase.
Qed.

(** X9. The normalized street is in normal form: normalizing it again
    changes nothing, it has no small letter, and it neither starts nor ends
    with whitespace unless it is empty. *)
Theorem normalized_street_normal (s : string) :
  let n := toUpperCase (trim s) in
  toUpperCase (trim n) = n /\
  allChars (fun c => negb (isLower c)) n = true /\
  (forall c rest, n = String c rest -> isWhiteSpace c = false) /\
  (forall front c, n = front ++ String c "" -> isWhiteSpace c = false).
Proof.
  cbv zeta. repeat split.
  - now rewrite <- trim_toUpperCase_commute, trim_idempotent,
      toUpperCase_idempotent.
  - induction (trim s) as [|c t IH]; simpl; [reflexivity|].
    now rewrite isLower_upperChar, IH.
  - intros c rest H. rewrite trim_toUpperCase_commute in H.
    unfold trim in H. remember (toUpperCase s) as u eqn:Hu. clear Hu s.
    assert (forall v, (v = "" \/ exists d v', v = String d v' /\
                                        isWhiteSpace d = false) ->
                      trimEnd v = String c rest -> isWhiteSpace c = false)
      as Hend.
    { intros v [-> | (d & v' & -> & Hd)]; simpl; [discriminate|].
      destruct (trimEnd v'); [rewrite Hd|]; intros [= <- _]; exact Hd. }
    apply (Hend (trimStart u)); [|exact H].
    clear. induction u as [|d u IH]; simpl; [now left|].
    destruct (isWhiteSpace d) eqn:Hd; [exact IH|]. right. eauto.
  - intros front c H. rewrite trim_toUpperCase_commute in H.
    unfold trim in H. remember (trimStart (toUpperCase s)) as u eqn:Hu.
    clear Hu s. revert front H.
    induction u as [|d u IH]; intros front H; simpl in H.
    + destruct front; discriminate H.
    + destruct (trimEnd u) as [|e t] eqn:Ht.
      * destruct (isWhiteSpace d) eqn:Hd.
        -- destruct front; discriminate H.
        -- destruct front as [|f front]; simpl in H.
           ++ now injection H as <-.
           ++ injection H as _ H. destruct front; discriminate H.
      * destruct front as [|f front]; simpl in H; [discriminate H|].
        injection H as _ H. now apply (IH front).
Qed.

Lemma normalized_street_normal_witness :
  toUpperCase (trim "12 MAIN ST") = "12 MAIN ST" /\
  isWhiteSpace "1" = false /\ isWhiteSpace "T" = false.
Proof.
  pose proof (normalized_street_normal " 12 Main st  ") as H.
  cbv zeta in H. destruct H as (H1 & _ & H3 & H4).
  split; [exact H1|]. split.
  - apply (H3 "1"%char "2 MAIN ST"). reflexivity.
  - apply (H4 "12 MAIN S" "T"%char). reflexivity.
Defined.

(** ** Properties of the handler *)

Ltac unfold_run :=
  unfold handler, tryCatch, tryBlock, andThen, fetch, await, throw,
    consoleError, ret, textResult.

(** What the [try] block does, path by path. *)
Lemma tryBlock_paths (env : Env.t) (net : Network.t) (params : Params.t)
  (w : World.t) :
  let sent1 := (World.sent w ++ [tokenRequest env])%list in
  tryBlock env net params w =
  match Network.token net (tokenRequest env) with
  | Raised e => (Raised e, World.mk (World.errors w) sent1)
  | Returned tokenResponse =>
      if negb (Http.ok tokenResponse) then
        (Raised (Err.mk "Error" "Failed to get USPS access token"),
         World.mk (World.errors w) sent1)
      else
        match Http.json tokenResponse with
        | Raised e => (Raised e, World.mk (World.errors w) sent1)
        | Returned TokenData.Null =>
            (Raised
               (Err.mk "TypeError"
                  "Cannot read properties of null (reading 'access_token')"),
             World.mk (World.errors w) sent1)
        | Returned (TokenData.mk accessToken) =>
            let request := validationRequest params accessToken in
            let sent2 :=
              (World.sent w ++ [tokenRequest env; request])%list in
            match Network.address net request with
            | Raised e => (Raised e, World.mk (World.errors w) sent2)
            | Returned validationResponse =>
                if negb (Http.ok validationResponse) then
                  match Http.text validationResponse with
                  | Raised e => (Raised e, World.mk (World.errors w) sent2)
                  | Returned errorText =>
                      (Raised
                         (Err.mk "Error"
                            ("Failed to validate address with USPS API. Status: "
                             ++ statusText (Http.status validationResponse))),
                       World.mk
                         (World.errors w
                          ++ [("USPS API Error:", LoggedText errorText)])%list
                         sent2)
                  end
                else
                  match Http.json validationResponse with
                  | Raised e => (Raised e, World.mk (World.errors w) sent2)
                  | Returned validationData =>
                      (ofCompletion (feedback params validationData),
                       World.mk (World.errors w) sent2)
                  end
            end
        end
  end.
Proof.
  cbv zeta. unfold_run. cbn [World.errors World.sent].
  destruct (Network.token net (tokenRequest env)) as [r1|e1];
    [|reflexivity].
  destruct (negb (Http.ok r1)); [reflexivity|].
  destruct (Http.json r1) as [[|tok]|e2]; [reflexivity| |reflexivity].
  cbn [World.errors World.sent].
  destruct (Network.address net _) as [r2|e3];
    [|now rewrite <- app_assoc].
  destruct (negb (Http.ok r2)).
  - destruct (Http.text r2); cbn [World.errors World.sent];
      now rewrite <- app_assoc.
  - destruct (Http.json r2); cbn [World.errors World.sent];
      now rewrite <- app_assoc.
Qed.

(** The handler, from what its [try] block does. *)
Lemma handler_from_tryBlock (env : Env.t) (net : Network.t)
  (params : Params.t) (w : World.t) :
  handler env net params w =
  match tryBlock env net params w with
  | (Returned fb, w') => (Returned (textResult fb), w')
  | (Raised e, w') =>
      (Returned (textResult ("Error: " ++ Err.message e)),
       World.mk
         (World.errors w'
          ++ [("Error in validateAddress tool:", LoggedError e)])%list
         (World.sent w'))
  end.
Proof.
  unfold handler, tryCatch, andThen, consoleError, ret, textResult.
  destruct (tryBlock env net params w) as [[fb|e] w']; reflexivity.
Qed.

Example handler_valid :
  handler SampleNet.env
    (Network.mk (SampleNet.tokenOk "tok")
       (SampleNet.addressOk (Sample.matched "123 MAIN ST" "Y")))
    (Sample.params "123 Main St") SampleNet.start
  = (Returned (textResult "Address is valid."),
     World.mk []
       [tokenRequest SampleNet.env;
        Http.mkRequest
          "https://apis.usps.com/addresses/v3/address?streetAddress=123+Main+St&city=Springfield&state=IL&ZIPCode=62704"
          "GET"
          [("Authorization", "Bearer tok");
           ("Content-Type", "application/json")]
          None]).
Proof. reflexivity. Qed.

Example tokenRequest_body :
  Http.body (tokenRequest (Env.mk (Some "my id") None))
  = Some "grant_type=client_credentials&client_id=my+id&client_secret=".
Proof. reflexivity. Qed.

Example validationUrl_reserved :
  validationUrl (Params.mk "1 Main St #4&x=1" "St. Louis" "MO" (Some ""))
  = "https://apis.usps.com/addresses/v3/address?streetAddress=1+Main+St+%234%26x%3D1&city=St.+Louis&state=MO".
Proof. reflexivity. Qed.

Example handler_network_down :
  handler SampleNet.env (Network.mk SampleNet.down SampleNet.down)
    (Sample.params "123 Main St") SampleNet.start
  = (Returned (textResult "Error: fetch failed"),
     World.mk
       [("Error in validateAddress tool:",
         LoggedError (Err.mk "TypeError" "fetch failed"))]
       [tokenRequest SampleNet.env]).
Proof. reflexivity. Qed.

Example handler_token_missing :
  World.sent
    (snd (handler SampleNet.env
            (Network.mk
               (fun _ =>
                  Returned (Http.mkResponse true 200 (Returned "{}")
                              (Returned (TokenData.mk JUndefined))))
               SampleNet.down)
            (Sample.params "123 Main St") SampleNet.start))
  = [tokenRequest SampleNet.env;
     Http.mkRequest
       "https://apis.usps.com/addresses/v3/address?streetAddress=123+Main+St&city=Springfield&state=IL&ZIPCode=62704"
       "GET"
       [("Authorization", "Bearer undefined");
        ("Content-Type", "application/json")]
       None].
Proof. reflexivity. Qed.

Example handler_token_body_null :
  handler SampleNet.env
    (Network.mk
       (fun _ =>
          Returned (Http.mkResponse true 200 (Returned "null")
                      (Returned TokenData.Null)))
       (SampleNet.addressOk (Sample.matched "123 MAIN ST" "Y")))
    (Sample.params "123 Main St") SampleNet.start
  = (Returned
       (textResult
          "Error: Cannot read properties of null (reading 'access_token')"),
     World.mk
       [("Error in validateAddress tool:",
         LoggedError
           (Err.mk "TypeError"
              "Cannot read properties of null (reading 'access_token')"))]
       [tokenRequest SampleNet.env]).
Proof. reflexivity. Qed.

Example handler_body_null :
  fst (handler SampleNet.env
         (Network.mk (SampleNet.tokenOk "tok")
            (SampleNet.addressOk ValidationData.Null))
         (Sample.params "123 Main St") SampleNet.start)
  = Returned
      (textResult "Error: Cannot read properties of null (reading 'address')").
Proof. reflexivity. Qed.

Example handler_street_missing_in_body :
  handler SampleNet.env
    (Network.mk (SampleNet.tokenOk "tok")
       (SampleNet.addressOk
          (ValidationData.mk
             (Some (Address.mk JUndefined (JString "Springfield")
                      (JString "IL") (JString "62704") (JString "1234")))
             None None)))
    (Sample.params "123 Main St") (World.mk [] [])
  = (Returned
       (textResult
          "Error: Cannot read properties of undefined (reading 'trim')"),
     World.mk
       [("Error in validateAddress tool:",
         LoggedError
           (Err.mk "TypeError"
              "Cannot read properties of undefined (reading 'trim')"))]
       [tokenRequest SampleNet.env;
        validationRequest (Sample.params "123 Main St") (JString "tok")]).
Proof. reflexivity. Qed.

(** X10. The handler never rejects: whatever the two endpoints answer, also
    when a [fetch] fails or a body does not parse, it returns a result with
    exactly one item, of type text; and it only adds to the console and to
    the requests sent. *)
Theorem handler_never_raises (env : Env.t) (net : Network.t)
  (params : Params.t) (w : World.t) :
  exists t w' logged requests,
    handler env net params w = (Returned (mkResult [mkContent "text" t]), w')
    /\ World.errors w' = (World.errors w ++ logged)%list
    /\ World.sent w' = (World.sent w ++ requests)%list.
Proof.
  rewrite handler_from_tryBlock, tryBlock_paths. cbv zeta.
  unfold textResult.
  destruct (Network.token net (tokenRequest env)) as [r1|e1].
  2: { do 4 eexists. split; [reflexivity|]. cbn [World.errors World.sent].
       split; reflexivity. }
  destruct (negb (Http.ok r1)).
  { do 4 eexists. split; [reflexivity|]. cbn [World.errors World.sent].
    split; reflexivity. }
  destruct (Http.json r1) as [[|tok]|e2].
  1, 3: (do 4 eexists; split; [reflexivity|];
         cbn [World.errors World.sent]; split; reflexivity).
  destruct (Network.address net _) as [r2|e3].
  2: { do 4 eexists. split; [reflexivity|]. cbn [World.errors World.sent].
       split; reflexivity. }
  destruct (negb (Http.ok r2)).
  - destruct (Http.text r2) as [body|e4].
    + do 4 eexists. split; [reflexivity|]. cbn [World.errors World.sent].
      split; [now rewrite <- app_assoc | reflexivity].
    + do 4 eexists. split; [reflexivity|]. cbn [World.errors World.sent].
      split; reflexivity.
  - destruct (Http.json r2) as [vd|e5].
    + destruct (feedback params vd) as [fb|x]; cbn [ofCompletion].
      * exists fb. do 3 eexists. split; [reflexivity|].
        cbn [World.errors World.sent].
        split; [now rewrite app_nil_r | reflexivity].
      * do 4 eexists. split; [reflexivity|]. cbn [World.errors World.sent].
        split; reflexivity.
    + do 4 eexists. split; [reflexivity|]. cbn [World.errors World.sent].
      split; reflexivity.
Qed.

Lemma grantedToken_Some (env : Env.t) (net : Network.t) (token : value) :
  grantedToken env net = Some token ->
  exists response tokenData,
    Network.token net (tokenRequest env) = Returned response /\
    Http.ok response = true /\
    Http.json response = Returned tokenData /\
    tokenData = TokenData.mk token.
Proof.
  unfold grantedToken.
  destruct (Network.token net (tokenRequest env)) as [r|e];
    [|discriminate].
  destruct (Http.ok r) eqn:Hok; [|discriminate].
  destruct (Http.json r) as [[|tok]|e] eqn:Hj; try discriminate.
  intros [= <-]. exists r, (TokenData.mk tok). auto.
Qed.

Lemma handler_sent (env : Env.t) (net : Network.t) (params : Params.t)
  (w : World.t) :
  World.sent (snd (handler env net params w)) =
  (World.sent w ++
   tokenRequest env ::
   match grantedToken env net with
   | Some token => [validationRequest params token]
   | None => []
   end)%list.
Proof.
  rewrite handler_from_tryBlock, tryBlock_paths. cbv zeta.
  unfold grantedToken.
  destruct (Network.token net (tokenRequest env)) as [r1|e1];
    [|reflexivity].
  destruct (Http.ok r1); cbn [negb]; [|reflexivity].
  destruct (Http.json r1) as [[|tok]|e2]; [reflexivity| |reflexivity].
  destruct (Network.address net _) as [r2|e3]; [|reflexivity].
  destruct (negb (Http.ok r2)).
  - destruct (Http.text r2); reflexivity.
  - destruct (Http.json r2) as [vd|e5]; [|reflexivity].
    destruct (feedback params vd); reflexivity.
Qed.



(** X12. When the token endpoint answers with a status that is not [ok],
    the address is not sent anywhere: the handler has sent the token
    request only, its text is "Error: Failed to get USPS access token", and
    the console has got that error. *)
Theorem token_refused (env : Env.t) (net : Network.t) (params : Params.t)
  (w : World.t) (response : Http.Response TokenData.t) :
  Network.token net (tokenRequest env) = Returned response ->
  Http.ok response = false ->
  handler env net params w =
  (Returned (textResult "Error: Failed to get USPS access token"),
   World.mk
     (World.errors w ++
      [("Error in validateAddress tool:",
        LoggedError (Err.mk "Error" "Failed to get USPS access token"))])%list
     (World.sent w ++ [tokenRequest env])%list).
Proof.
  intros Ht Hok. rewrite handler_from_tryBlock, tryBlock_paths. cbv zeta.
  rewrite Ht, Hok. reflexivity.
Qed.

Lemma token_refused_witness :
  handler SampleNet.env
    (Network.mk SampleNet.tokenDenied
       (SampleNet.addressOk (Sample.matched "123 MAIN ST" "Y")))
    (Sample.params "123 Main St") SampleNet.start
  = (Returned (textResult "Error: Failed to get USPS access token"),
     World.mk
       [("Error in validateAddress tool:",
         LoggedError (Err.mk "Error" "Failed to get USPS access token"))]
       [tokenRequest SampleNet.env]).
Proof.
  exact (token_refused SampleNet.env
           (Network.mk SampleNet.tokenDenied
              (SampleNet.addressOk (Sample.matched "123 MAIN ST" "Y")))
           (Sample.params "123 Main St") SampleNet.start
           _ eq_refl eq_refl).
Defined.

(** X13. When the address endpoint answers with a status that is not
    [ok], the text is "Error: Failed to validate address with USPS API.
    Status: " followed by the status in decimal, and the console has got
    the body of the answer and then the error. *)
Theorem lookup_refused (env : Env.t) (net : Network.t) (params : Params.t)
  (w : World.t) (token : value) (response : Http.Response ValidationData.t)
  (errorText : string) :
  grantedToken env net = Some token ->
  Network.address net (validationRequest params token) = Returned response ->
  Http.ok response = false ->
  Http.text response = Returned errorText ->
  let error :=
    Err.mk "Error"
      ("Failed to validate address with USPS API. Status: "
       ++ statusText (Http.status response)) in
  handler env net params w =
  (Returned (textResult ("Error: " ++ Err.message error)),
   World.mk
     (World.errors w ++
      [("USPS API Error:", LoggedText errorText);
       ("Error in validateAddress tool:", LoggedError error)])%list
     (World.sent w ++ [tokenRequest env; validationRequest params token])%list).
Proof.
  intros Hg Ha Hok Htext.
  destruct (grantedToken_Some _ _ _ Hg) as (r & d & Hr & Hrok & Hj & ->).
  cbv zeta. rewrite handler_from_tryBlock, tryBlock_paths. cbv zeta.
  rewrite Hr, Hrok, Hj. cbn [negb]. rewrite Ha, Hok, Htext. cbn [negb].
  cbn [World.errors World.sent]. now rewrite <- app_assoc.
Qed.

Lemma lookup_refused_witness :
  fst (handler SampleNet.env
         (Network.mk (SampleNet.tokenOk "tok")
            (SampleNet.addressStatus 503 "Service Unavailable"))
         (Sample.params "123 Main St") SampleNet.start)
  = Returned
      (textResult
         "Error: Failed to validate address with USPS API. Status: 503").
Proof.
  rewrite (lookup_refused SampleNet.env
             (Network.mk (SampleNet.tokenOk "tok")
                (SampleNet.addressStatus 503 "Service Unavailable"))
             (Sample.params "123 Main St") SampleNet.start
             (JString "tok") _ "Service Unavailable"
             eq_refl eq_refl eq_refl eq_refl).
  reflexivity.
Defined.

(** X14. When both endpoints answer [ok] with bodies that parse, the
    handler does what step 3 does on the parsed body: its result is the
    result of [validateAddress], and the console gets what [validateAddress]
    writes. *)
Theorem handler_runs_step3 (env : Env.t) (net : Network.t)
  (params : Params.t) (w : World.t) (token : value)
  (response : Http.Response ValidationData.t)
  (validationData : ValidationData.t) (log : console) :
  grantedToken env net = Some token ->
  Network.address net (validationRequest params token) = Returned response ->
  Http.ok response = true ->
  Http.json response = Returned validationData ->
  fst (handler env net params w) =
    Returned (fst (validateAddress params validationData log)) /\
  World.errors (snd (handler env net params w)) =
    (World.errors w
     ++ map loggedOf (snd (validateAddress params validationData [])))%list.
Proof.
  intros Hg Ha Hok Hjson.
  destruct (grantedToken_Some _ _ _ Hg) as (r & d & Hr & Hrok & Hj & ->).
  rewrite handler_from_tryBlock, tryBlock_paths. cbv zeta.
  rewrite Hr, Hrok, Hj. cbn [negb]. rewrite Ha, Hok, Hjson. cbn [negb].
  unfold validateAddress.
  destruct (feedback params validationData) as [fb|x]; cbn.
  - split; [reflexivity | now rewrite app_nil_r].
  - split; reflexivity.
Qed.

Lemma handler_runs_step3_witness :
  fst (handler SampleNet.env
         (Network.mk (SampleNet.tokenOk "tok")
            (SampleNet.addressOk (Sample.matched "123 MAIN ST" "D")))
         (Sample.params "123 Main St") SampleNet.start)
  = Returned
      (textResult
         "Address could be more accurate. Suggested address: 123 MAIN ST, Springfield, IL 62704-1234").
Proof.
  exact (proj1 (handler_runs_step3 SampleNet.env
                  (Network.mk (SampleNet.tokenOk "tok")
                     (SampleNet.addressOk (Sample.matched "123 MAIN ST" "D")))
                  (Sample.params "123 Main St") SampleNet.start
                  (JString "tok") _ (Sample.matched "123 MAIN ST" "D") []
                  eq_refl eq_refl eq_refl eq_refl)).
Defined.

Lemma prefix_Error_render (v : Verdict) :
  String.prefix "Error: " (render v) = false.
Proof. destruct v as [| | |[|]]; reflexivity. Qed.

Lemma prefix_Error_append (m : string) :
  String.prefix "Error: " ("Error: " ++ m) = true.
Proof. destruct m; reflexivity. Qed.

Ltac thrown_case e before :=
  eexists; split; [reflexivity|]; right; exists e, before;
  cbn [fst snd World.errors World.sent app];
  split; [reflexivity|]; split; [apply prefix_Error_append | reflexivity].

(** X15. The text tells a failure from a verdict: either the [try] block
    completed, the text is the text of a verdict, it does not start with
    "Error: " and the console is as it was; or something was thrown, the
    text is "Error: " followed by the message of what was thrown, and that
    error is the last thing on the console. *)
Theorem error_prefix_tells_failure (env : Env.t) (net : Network.t)
  (params : Params.t) (w : World.t) :
  exists t,
    fst (handler env net params w) = Returned (textResult t) /\
    ((exists v,
         t = render v /\ String.prefix "Error: " t = false /\
         World.errors (snd (handler env net params w)) = World.errors w) \/
     (exists e before,
         t = "Error: " ++ Err.message e /\
         String.prefix "Error: " t = true /\
         World.errors (snd (handler env net params w)) =
         (World.errors w ++ before ++
          [("Error in validateAddress tool:", LoggedError e)])%list)).
Proof.
  rewrite handler_from_tryBlock, tryBlock_paths. cbv zeta.
  destruct (Network.token net (tokenRequest env)) as [r1|e1];
    [|thrown_case e1 (@nil (string * logged))].
  destruct (negb (Http.ok r1));
    [thrown_case (Err.mk "Error" "Failed to get USPS access token")
       (@nil (string * logged))|].
  destruct (Http.json r1) as [[|tok]|e2];
    [thrown_case
       (Err.mk "TypeError"
          "Cannot read properties of null (reading 'access_token')")
       (@nil (string * logged))
    | |thrown_case e2 (@nil (string * logged))].
  destruct (Network.address net _) as [r2|e3];
    [|thrown_case e3 (@nil (string * logged))].
  destruct (negb (Http.ok r2)).
  - destruct (Http.text r2) as [body|e4];
      [|thrown_case e4 (@nil (string * logged))].
    eexists. split; [reflexivity|]. right.
    eexists. exists [("USPS API Error:", LoggedText body)].
    cbn [fst snd World.errors World.sent].
    split; [reflexivity|]. split; [reflexivity|].
    now rewrite <- app_assoc.
  - destruct (Http.json r2) as [vd|e5];
      [|thrown_case e5 (@nil (string * logged))].
    destruct (feedback params vd) as [fb|x] eqn:Hfb; cbn [ofCompletion].
    + destruct (feedback_is_verdict _ _ _ Hfb) as [v ->].
      eexists. split; [reflexivity|]. left. exists v.
      split; [reflexivity|]. split; [apply prefix_Error_render|reflexivity].
    + thrown_case (Err.ofExn x) (@nil (string * logged)).
Qed.

(** X16. The credentials go into the token request and nowhere else: with
    two environments to which the token endpoint answers the same, the
    handler returns the same result, writes the same to the console and
    sends the same requests after the token request. *)
Theorem credentials_confined (env env' : Env.t) (net : Network.t)
  (params : Params.t) (w : World.t) :
  Network.token net (tokenRequest env) =
  Network.token net (tokenRequest env') ->
  fst (handler env net params w) = fst (handler env' net params w) /\
  World.errors (snd (handler env net params w)) =
  World.errors (snd (handler env' net params w)) /\
  exists later,
    World.sent (snd (handler env net params w)) =
      (World.sent w ++ tokenRequest env :: later)%list /\
    World.sent (snd (handler env' net params w)) =
      (World.sent w ++ tokenRequest env' :: later)%list.
Proof.
  intro H.
  assert (grantedToken env net = grantedToken env' net) as Hg.
  { unfold grantedToken. now rewrite H. }
  split; [|split].
  - rewrite !handler_from_tryBlock, !tryBlock_paths. cbv zeta. rewrite H.
    destruct (Network.token net (tokenRequest env')) as [r1|e1];
      [|reflexivity].
    destruct (negb (Http.ok r1)); [reflexivity|].
    destruct (Http.json r1) as [[|tok]|e2]; [reflexivity| |reflexivity].
    destruct (Network.address net _) as [r2|e3]; [|reflexivity].
    destruct (negb (Http.ok r2)).
    + destruct (Http.text r2); reflexivity.
    + destruct (Http.json r2) as [vd|e5]; [|reflexivity].
      destruct (feedback params vd); reflexivity.
  - rewrite !handler_from_tryBlock, !tryBlock_paths. cbv zeta. rewrite H.
    destruct (Network.token net (tokenRequest env')) as [r1|e1];
      [|reflexivity].
    destruct (negb (Http.ok r1)); [reflexivity|].
    destruct (Http.json r1) as [[|tok]|e2]; [reflexivity| |reflexivity].
    destruct (Network.address net _) as [r2|e3]; [|reflexivity].
    destruct (negb (Http.ok r2)).
    + destruct (Http.text r2); reflexivity.
    + destruct (Http.json r2) as [vd|e5]; [|reflexivity].
      destruct (feedback params vd); reflexivity.
  - rewrite !handler_sent, Hg. eexists. split; reflexivity.
Qed.

Lemma credentials_confined_witness :
  fst (handler (Env.mk (Some "id") (Some "secret"))
         (Network.mk (SampleNet.tokenOk "tok")
            (SampleNet.addressOk (Sample.matched "123 MAIN ST" "Y")))
         (Sample.params "123 Main St") SampleNet.start)
  = fst (handler (Env.mk None None)
           (Network.mk (SampleNet.tokenOk "tok")
              (SampleNet.addressOk (Sample.matched "123 MAIN ST" "Y")))
           (Sample.params "123 Main St") SampleNet.start).
Proof.
  exact (proj1 (credentials_confined (Env.mk (Some "id") (Some "secret"))
                  (Env.mk None None)
                  (Network.mk (SampleNet.tokenOk "tok")
                     (SampleNet.addressOk (Sample.matched "123 MAIN ST" "Y")))
                  (Sample.params "123 Main St") SampleNet.start eq_refl)).
Defined.

(** ** Properties of the request URL *)

Lemma occurrences_append (c : ascii) (s t : string) :
  occurrences c (s ++ t) = occurrences c s + occurrences c t.
Proof.
  induction s as [|d s IH]; simpl; [reflexivity|]. rewrite IH. lia.
Qed.

Lemma allChars_append (P : ascii -> bool) (s t : string) :
  allChars P (s ++ t) = allChars P s && allChars P t.
Proof.
  induction s as [|d s IH]; simpl; [reflexivity|].
  now rewrite IH, andb_assoc.
Qed.

Lemma allChars_weaken (P Q : ascii -> bool) (s : string) :
  (forall c, P c = true -> Q c = true) ->
  allChars P s = true -> allChars Q s = true.
Proof.
  intro HPQ. induction s as [|d s IH]; simpl; [reflexivity|].
  intros [Hd Hs]%andb_true_iff. now rewrite (HPQ _ Hd), IH.
Qed.

Lemma allChars_occurrences (P : ascii -> bool) (c : ascii) (s : string) :
  P c = false -> allChars P s = true -> occurrences c s = 0.
Proof.
  intro Hc. induction s as [|d s IH]; simpl; [reflexivity|].
  intros [Hd Hs]%andb_true_iff. rewrite (IH Hs).
  destruct (Ascii.eqb_spec c d) as [->|]; [congruence | reflexivity].
Qed.

Lemma encodeByte_valueChars (c : ascii) :
  allChars isValueChar (Form.encodeByte c) = true.
Proof.
  apply (forall_ascii (fun x => allChars isValueChar (Form.encodeByte x))).
  vm_compute. reflexivity.
Qed.

(** An encoded string has letters, digits, [*], [-], [.], [_], [+] and [%]
    only. *)
Lemma encode_valueChars (s : string) :
  allChars isValueChar (Form.encode s) = true.
Proof.
  induction s as [|c s IH]; simpl; [reflexivity|].
  now rewrite allChars_append, encodeByte_valueChars, IH.
Qed.

Lemma encode_no_amp (s : string) : occurrences "&" (Form.encode s) = 0.
Proof.
  apply (allChars_occurrences isValueChar); [reflexivity|].
  apply encode_valueChars.
Qed.

Lemma encode_no_eq (s : string) : occurrences "=" (Form.encode s) = 0.
Proof.
  apply (allChars_occurrences isValueChar); [reflexivity|].
  apply encode_valueChars.
Qed.

Lemma formDecode_encodeByte (c : ascii) (rest : string) :
  formDecode (Form.encodeByte c ++ rest) =
  match formDecode rest with
  | Some t => Some (String c t)
  | None => None
  end.
Proof.
  destruct c as [[] [] [] [] [] [] [] []]; reflexivity.
Qed.

(** Decoding gives back what was encoded. *)
Lemma formDecode_encode (s : string) : formDecode (Form.encode s) = Some s.
Proof.
  induction s as [|c s IH]; [reflexivity|].
  cbn [Form.encode]. now rewrite formDecode_encodeByte, IH.
Qed.

Lemma encode_inj (s t : string) : Form.encode s = Form.encode t -> s = t.
Proof.
  intro H. apply (f_equal formDecode) in H.
  rewrite !formDecode_encode in H. now injection H.
Qed.

(** Two strings without [&], each followed by [&] and a rest. *)
Lemma split_at_amp (x x' r r' : string) :
  occurrences "&" x = 0 -> occurrences "&" x' = 0 ->
  x ++ String "&" r = x' ++ String "&" r' -> x = x' /\ r = r'.
Proof.
  revert x'.
  induction x as [|c x IH]; intros [|c' x']; cbn [occurrences append].
  - intros _ _ [= ->]. auto.
  - intros _ H [= <- _]. rewrite Ascii.eqb_refl in H. discriminate H.
  - intros H _ [= -> _]. rewrite Ascii.eqb_refl in H. discriminate H.
  - intros H H' [= <- Hx].
    destruct (Ascii.eqb "&" c); [discriminate H|].
    destruct (IH x' H H' Hx) as [-> ->]. auto.
Qed.

Lemma no_amp_no_split (x x' r' : string) :
  occurrences "&" x = 0 -> x <> x' ++ String "&" r'.
Proof.
  intros H ->. rewrite occurrences_append in H. simpl in H. lia.
Qed.

Lemma searchParams_sentZip (params : Params.t) :
  searchParams params =
  ([("streetAddress", Params.streetAddress params);
    ("city", Params.city params);
    ("state", Params.state params)]
   ++ match sentZip params with
      | Some zip => [("ZIPCode", zip)]
      | None => []
      end)%list.
Proof.
  unfold searchParams, sentZip.
  destruct (Params.zipCode params) as [zip|]; [|reflexivity].
  destruct (String.eqb zip ""); reflexivity.
Qed.

(** The URL, written out. *)
Lemma validationUrl_shape (params : Params.t) :
  validationUrl params =
  "https://apis.usps.com/addresses/v3/address?streetAddress="
  ++ Form.encode (Params.streetAddress params)
  ++ "&city=" ++ Form.encode (Params.city params)
  ++ "&state=" ++ Form.encode (Params.state params)
  ++ match sentZip params with
     | Some zip => "&ZIPCode=" ++ Form.encode zip
     | None => ""
     end.
Proof.
  unfold validationUrl. rewrite searchParams_sentZip.
  unfold Form.serialize.
  destruct (sentZip params) as [zip|];
    cbn [map app String.concat fst snd Form.encode Form.encodeByte];
    cbn; rewrite ?append_assoc; cbn; rewrite ?append_assoc; cbn;
    rewrite ?append_empty_r; reflexivity.
Qed.

(** X17. The request URL keeps what was submitted apart: two ASCII
    submissions get the same URL exactly when they have the same street,
    city and state and the same ZIP code sent, where a missing ZIP code and
    an empty one are both not sent. *)
Theorem validationUrl_injective (params params' : Params.t) :
  asciiParams params = true ->
  asciiParams params' = true ->
  (validationUrl params = validationUrl params' <->
   Params.streetAddress params = Params.streetAddress params' /\
   Params.city params = Params.city params' /\
   Params.state params = Params.state params' /\
   sentZip params = sentZip params').
Proof.
  intros _ _. rewrite !validationUrl_shape. split.
  - intro H. apply append_inv_head in H.
    apply split_at_amp in H; try apply encode_no_amp.
    destruct H as [Hstreet H]. apply (append_inv_head "city=") in H.
    apply split_at_amp in H; try apply encode_no_amp.
    destruct H as [Hcity H]. apply (append_inv_head "state=") in H.
    apply encode_inj in Hstreet, Hcity.
    repeat split; try assumption.
    + destruct (sentZip params) as [zip|], (sentZip params') as [zip'|].
      * apply split_at_amp in H; try apply encode_no_amp.
        destruct H as [H _]. now apply encode_inj.
      * rewrite append_empty_r in H. symmetry in H.
        now apply no_amp_no_split in H; [|apply encode_no_amp].
      * rewrite append_empty_r in H.
        now apply no_amp_no_split in H; [|apply encode_no_amp].
      * rewrite !append_empty_r in H. now apply encode_inj.
    + destruct (sentZip params) as [zip|], (sentZip params') as [zip'|].
      * apply split_at_amp in H; try apply encode_no_amp.
        destruct H as [_ H]. apply (append_inv_head "ZIPCode=") in H.
        apply encode_inj in H. now subst.
      * rewrite append_empty_r in H. symmetry in H.
        now apply no_amp_no_split in H; [|apply encode_no_amp].
      * rewrite append_empty_r in H.
        now apply no_amp_no_split in H; [|apply encode_no_amp].
      * reflexivity.
  - intros (-> & -> & -> & ->). reflexivity.
Qed.

Lemma validationUrl_injective_witness :
  validationUrl (Params.mk "1 Main St" "Springfield" "IL" None)
  = validationUrl (Params.mk "1 Main St" "Springfield" "IL" (Some "")) /\
  sentZip (Params.mk "1 Main & St" "A" "IL" None)
  = sentZip (Params.mk "1 Main & St" "A" "IL" (Some "")).
Proof.
  split.
  - apply (proj2 (validationUrl_injective
                    (Params.mk "1 Main St" "Springfield" "IL" None)
                    (Params.mk "1 Main St" "Springfield" "IL" (Some ""))
                    eq_refl eq_refl)).
    repeat split; reflexivity.
  - apply (proj1 (validationUrl_injective
                    (Params.mk "1 Main & St" "A" "IL" None)
                    (Params.mk "1 Main & St" "A" "IL" (Some ""))
                    eq_refl eq_refl)).
    reflexivity.
Defined.

(** X18. Nothing submitted can add a parameter to the request: whatever
    the street, city, state and ZIP code contain, the query is made of
    letters, digits and [* - . _ + % = &] only, and it has three [=] and
    two [&], or four and three when a ZIP code is sent. *)
Theorem query_parameters_fixed (params : Params.t) :
  let query := Form.serialize (searchParams params) in
  let zip := match sentZip params with Some _ => 1 | None => 0 end in
  allChars isQueryChar query = true /\
  occurrences "=" query = 3 + zip /\
  occurrences "&" query = 2 + zip.
Proof.
  cbv zeta.
  assert (forall s, allChars isQueryChar (Form.encode s) = true) as Hq.
  { intro s. apply (allChars_weaken isValueChar); [|apply encode_valueChars].
    intros c Hc. unfold isQueryChar. unfold isValueChar in Hc.
    now rewrite Hc. }
  pose proof (validationUrl_shape params) as Hshape.
  unfold validationUrl in Hshape.
  apply (append_inv_head "https://apis.usps.com/addresses/v3/address?"
           (Form.serialize (searchParams params))) in Hshape.
  rewrite Hshape.
  destruct (sentZip params) as [zip|];
    do 5 (cbn; rewrite ?allChars_append, ?occurrences_append, ?Hq,
            ?encode_no_eq, ?encode_no_amp);
    repeat split; reflexivity.
Qed.

(** X19. The serializer loses nothing on the ASCII repertoire: two ASCII
    strings that encode to the same text are the same string. *)
Theorem form_encode_injective (s t : string) :
  isAscii s = true -> isAscii t = true ->
  Form.encode s = Form.encode t -> s = t.
Proof.
  intros _ _ H.
  assert (formDecode (Form.encode s) = formDecode (Form.encode t)) as Hd
    by now rewrite H.
  rewrite !formDecode_encode in Hd. now injection Hd.
Qed.

Lemma form_encode_injective_witness :
  Form.encode "a b&c" = "a+b%26c" /\ "a b&c" = "a b&c".
Proof.
  split; [reflexivity|].
  apply (form_encode_injective "a b&c" "a b&c"); reflexivity.
Defined.
